(** * Fapshi Node.js SDK: a shallow embedding of [src/client.ts]

    The client is a thin wrapper: it validates a few request fields,
    builds one HTTP request, awaits [fetch] and maps the outcome to a
    value or to a [FapshiError].  The embedding keeps that shape:

    - JavaScript values, truthiness and the few string operations the
      client uses live in [Module Js];
    - the asynchronous code is a small free monad [io] with one effect,
      [Fetch], so that "no HTTP request is made" and "the request
      proceeds to the network" are statements about the shape of the
      computation, and [run] executes it against any network;
    - the client itself ([detectEnvironmentFromApiKey], [new], [request]
      and the public operations) follows the source line by line. *)

From Stdlib Require Import String Ascii List ZArith QArith Lia Bool DecimalString.
Import ListNotations.

Local Open Scope string_scope.
Local Open Scope list_scope.

(* ================================================================== *)
(** * JavaScript values                                                 *)
(* ================================================================== *)

Module Js.

(** A JavaScript [number].  Every double is [NaN], an infinity or a
    rational; the client only compares numbers with the constants 1 and
    100 and tests them for truthiness, which this type decides exactly
    (negative zero behaves like zero in both). *)
Inductive number : Type :=
| NaN
| Infinity (negative : bool)
| Finite (q : Q).

Definition Qltb (x y : Q) : bool := negb (Qle_bool y x).

(** [x < y]: false as soon as one side is [NaN]. *)
Definition lessThan (x y : number) : bool :=
  match x, y with
  | NaN, _ => false
  | _, NaN => false
  | Finite a, Finite b => Qltb a b
  | Finite _, Infinity neg => negb neg
  | Infinity neg, Finite _ => neg
  | Infinity a, Infinity b => a && negb b
  end.

(** [x > y] is evaluated as [y < x]. *)
Definition greaterThan (x y : number) : bool := lessThan y x.

(** [x >= y] and [x <= y], used to state the accepted ranges. *)
Definition lessEq (x y : number) : bool :=
  match x, y with
  | NaN, _ => false
  | _, NaN => false
  | Finite a, Finite b => Qle_bool a b
  | Finite _, Infinity neg => negb neg
  | Infinity neg, Finite _ => neg
  | Infinity a, Infinity b => a || negb b
  end.

Definition greaterEq (x y : number) : bool := lessEq y x.

Definition ofZ (z : Z) : number := Finite (inject_Z z).

(** Values as [JSON.parse] and property reads produce them.  An object is
    its list of own properties in insertion order. *)
#[warnings="-register-all"]
Inductive value : Type :=
| VUndefined
| VNull
| VBool (b : bool)
| VNum (n : number)
| VStr (s : string)
| VArr (items : list value)
| VObj (props : list (string * value)).

(** ToBoolean. *)
Definition truthy (v : value) : bool :=
  match v with
  | VUndefined | VNull => false
  | VBool b => b
  | VNum NaN => false
  | VNum (Infinity _) => true
  | VNum (Finite q) => negb (Qeq_bool q 0)
  | VStr s => negb (s =? EmptyString)
  | VArr _ | VObj _ => true
  end.

(** [a || b] on values. *)
Definition orElse (a b : value) : value := if truthy a then a else b.

Fixpoint lookup {A : Type} (k : string) (props : list (string * A)) : option A :=
  match props with
  | [] => None
  | (k', v) :: rest => if k' =? k then Some v else lookup k rest
  end.

(** Whether the object carries property [k] ([false] on non-objects). *)
Definition hasProperty (v : value) (k : string) : bool :=
  match v with
  | VObj props => match lookup k props with Some _ => true | None => false end
  | _ => false
  end.

(** The message of the TypeError raised by a property read on [null] or
    [undefined] (V8's wording). *)
Definition typeErrorMessage (v : value) (k : string) : string :=
  "Cannot read properties of "
  ++ (match v with VNull => "null" | _ => "undefined" end)
  ++ " (reading '" ++ k ++ "')".

(** The read [v.k] for a data property name such as [message] or
    [transId]: [inl] is the TypeError message of a read on [null] or
    [undefined]; primitives and arrays have no such property. *)
Definition getProperty (v : value) (k : string) : string + value :=
  match v with
  | VUndefined | VNull => inl (typeErrorMessage v k)
  | VObj props =>
      inr (match lookup k props with Some x => x | None => VUndefined end)
  | _ => inr VUndefined
  end.

(** An optional field of a typed request, read as a value. *)
Definition ofNumber (o : option number) : value :=
  match o with Some n => VNum n | None => VUndefined end.

Definition ofString (o : option string) : value :=
  match o with Some s => VStr s | None => VUndefined end.

(** ToNumber on [number | undefined]. *)
Definition toNumber (o : option number) : number :=
  match o with Some n => n | None => NaN end.

(** [o === s] for an optional string field. *)
Definition strictEquals (o : option string) (s : string) : bool :=
  match o with Some x => x =? s | None => false end.

(** Strings are sequences of 8-bit characters: the client looks only at
    ASCII characters of its inputs (key prefixes, a trailing slash, the
    user-id class, error codes) and passes everything else through. *)

(** [s.startsWith(p)]. *)
Definition startsWith (s p : string) : bool := prefix p s.

(** [s.includes(p)]. *)
Fixpoint includes (s p : string) : bool :=
  prefix p s ||
  match s with
  | EmptyString => false
  | String _ rest => includes rest p
  end.

(** [s.replace(/\/$/, '')]: the pattern matches a slash that is the last
    character of the input, which is then removed. *)
Fixpoint replaceTrailingSlash (s : string) : string :=
  match s with
  | EmptyString => EmptyString
  | String c rest =>
      match rest with
      | EmptyString => if Ascii.eqb c "/" then EmptyString else s
      | String _ _ => String c (replaceTrailingSlash rest)
      end
  end.

(** [s] between double quotes. *)
Definition quoted (s : string) : string :=
  String (ascii_of_nat 34) s ++ String (ascii_of_nat 34) EmptyString.

(** A template-literal hole holding an integer. *)
Definition showZ (z : Z) : string := NilZero.string_of_int (Z.to_int z).

(** The anchored pattern [^[cls]{lo,hi}$]: every character is consumed
    by the class, between [lo] and [hi] of them, up to the end of input. *)
Fixpoint testClassRepeat (cls : ascii -> bool) (lo hi : nat) (s : string)
  {struct s} : bool :=
  match s with
  | EmptyString => Nat.eqb lo 0
  | String c rest =>
      match hi with
      | O => false
      | S hi' => cls c && testClassRepeat cls (Nat.pred lo) hi' rest
      end
  end.

Definition inRange (lo hi c : ascii) : bool :=
  (nat_of_ascii lo <=? nat_of_ascii c)%nat && (nat_of_ascii c <=? nat_of_ascii hi)%nat.

End Js.

Import Js.

(* ================================================================== *)
(** * Types of [src/types.ts]                                          *)
(* ================================================================== *)

Inductive Environment : Type := sandbox | live.

Module FapshiConfig.
Record t : Type := mk {
  apiUser : string;
  apiKey : string;
  environment : option Environment;
  baseUrl : option string
}.
End FapshiConfig.

Module InitiatePayRequest.
Record t : Type := mk {
  amount : option number;
  email : option string;
  redirectUrl : option string;
  userId : option string;
  externalId : option string;
  message : option string
}.
End InitiatePayRequest.

Module DirectPayRequest.
Record t : Type := mk {
  amount : option number;
  phone : option string;
  medium : option string;
  name : option string;
  email : option string;
  userId : option string;
  externalId : option string;
  message : option string
}.
End DirectPayRequest.

Module ExpirePayRequest.
Record t : Type := mk { transId : option string }.
End ExpirePayRequest.

Module PayoutRequest.
Record t : Type := mk {
  amount : option number;
  phone : option string;
  medium : option string;
  name : option string;
  email : option string;
  userId : option string;
  externalId : option string;
  message : option string
}.
End PayoutRequest.

Module SearchTransactionsParams.
Record t : Type := mk {
  status : option string;
  medium : option string;
  start : option string;
  end_ : option string;
  amt : option number;
  limit : option number;
  sort : option string
}.
End SearchTransactionsParams.

(** The value of a query parameter: [string | number | undefined | null]. *)
Inductive QueryValue : Type :=
| QString (s : string)
| QNumber (n : number)
| QUndefined
| QNull.

(* ================================================================== *)
(** * Errors, HTTP and the [io] monad                                   *)
(* ================================================================== *)

(** [class FapshiError]: [message] is whatever the constructor was given
    (the server's [message] property is passed on as it is). *)
Record FapshiError : Type := mkFapshiError {
  message : value;
  statusCode : option Z
}.

(** What the platform (node-fetch, the JSON parser, the engine) throws:
    an [Error] with its message, or some other value. *)
Inductive Foreign : Type :=
| ErrorObject (msg : string)
| OtherValue.

(** What a [catch] clause can receive. *)
Inductive Exn : Type :=
| Fapshi (e : FapshiError)
| Platform (f : Foreign).

(** The request body before [JSON.stringify]. *)
Inductive Body : Type :=
| InitiatePayBody (r : InitiatePayRequest.t)
| DirectPayBody (r : DirectPayRequest.t)
| ExpirePayBody (r : ExpirePayRequest.t)
| PayoutBody (r : PayoutRequest.t).

(** [new URL(s)] followed by [searchParams.append]: [href] is the string
    given to the constructor and [searchParams] the parameters the client
    appended to it, in order.  URL parsing is not modelled: the
    constructor's TypeError for a string that is not an absolute URL, the
    query a [?] of that string would already hold, and the normalisation
    done by [url.toString()] (dot segments, percent-encoding) are outside
    the model.  A statement about [href] is a statement about the
    constructor's argument, not about the serialised URL. *)
Record URL : Type := mkURL {
  href : string;
  searchParams : list (string * string)
}.

Definition newURL (s : string) : URL := mkURL s [].

Definition searchParams_append (u : URL) (k v : string) : URL :=
  mkURL (href u) (searchParams u ++ [(k, v)]).

Record HttpRequest : Type := mkHttpRequest {
  url : URL;
  method : string;
  headers : list (string * string);
  body : option Body
}.

(** A response as the client observes it: its status and what
    [response.json()] settles to. *)
Record Response : Type := mkResponse {
  status : Z;
  json : Foreign + value
}.

(** node-fetch's [response.ok]. *)
Definition ok (r : Response) : bool := (200 <=? status r)%Z && (status r <? 300)%Z.

(** What [await fetch(...)] settles to. *)
Inductive FetchResult : Type :=
| Rejects (f : Foreign)
| Resolves (r : Response).

(** Asynchronous computations of the client: they return, throw, or
    await one [fetch] and continue with its outcome. *)
Inductive io (A : Type) : Type :=
| Ret (a : A)
| Throw (e : Exn)
| Fetch (req : HttpRequest) (k : FetchResult -> io A).

Arguments Ret {A} a.
Arguments Throw {A} e.
Arguments Fetch {A} req k.

Fixpoint bind {A B : Type} (m : io A) (f : A -> io B) : io B :=
  match m with
  | Ret a => f a
  | Throw e => Throw e
  | Fetch req k => Fetch req (fun o => bind (k o) f)
  end.

(** [try { m } catch (error) { h error }]. *)
Fixpoint tryCatch {A : Type} (m : io A) (h : Exn -> io A) : io A :=
  match m with
  | Ret a => Ret a
  | Throw e => h e
  | Fetch req k => Fetch req (fun o => tryCatch (k o) h)
  end.

Notation "x <- m ;; k" := (bind m (fun x => k))
  (at level 61, m at next level, right associativity).

(** [await fetch(url, options)]. *)
Definition fetch (req : HttpRequest) : io Response :=
  Fetch req (fun o =>
    match o with
    | Rejects f => Throw (Platform f)
    | Resolves r => Ret r
    end).

(** [await response.json()]. *)
Definition awaitJson (r : Response) : io value :=
  match json r with
  | inl f => Throw (Platform f)
  | inr v => Ret v
  end.

(** A property read inside a computation. *)
Definition read (v : value) (k : string) : io value :=
  match getProperty v k with
  | inl msg => Throw (Platform (ErrorObject msg))
  | inr x => Ret x
  end.

(** Running a computation against a network: the requests sent, in
    order, and the outcome. *)
Fixpoint run {A : Type} (net : HttpRequest -> FetchResult) (m : io A)
  : list HttpRequest * (Exn + A) :=
  match m with
  | Ret a => ([], inr a)
  | Throw e => ([], inl e)
  | Fetch req k =>
      let (sent, out) := run net (k (net req)) in (req :: sent, out)
  end.

(** The error of a computation that throws before any request. *)
Definition failsLocally {A : Type} (m : io A) : option FapshiError :=
  match m with
  | Throw (Fapshi e) => Some e
  | _ => None
  end.

(** The request of a computation whose first step is the network. *)
Definition networkCall {A : Type} (m : io A) : option HttpRequest :=
  match m with
  | Fetch req _ => Some req
  | _ => None
  end.

(* ================================================================== *)
(** * The client                                                        *)
(* ================================================================== *)

(** Detects the environment from the API key format: sandbox keys are
    [FAK_TEST_XXX], live keys are [FAK_XXX]. *)
Definition detectEnvironmentFromApiKey (apiKey : string) : Environment :=
  if startsWith apiKey "FAK_TEST_" then sandbox
  else if startsWith apiKey "FAK_" then live
  else sandbox.

Record FapshiClient : Type := mkFapshiClient {
  baseUrl : string;
  apiUser : string;
  apiKey : string
}.

(** [config.environment || detectEnvironmentFromApiKey(config.apiKey)]:
    both environment tags are non-empty strings, hence truthy. *)
Definition environmentOr (o : option Environment) (detected : Environment)
  : Environment :=
  match o with Some e => e | None => detected end.

(** The constructor of [FapshiClient]: [if (config.baseUrl)] tests the
    optional string for truthiness. *)
Definition new (config : FapshiConfig.t) : FapshiClient :=
  let apiUser := FapshiConfig.apiUser config in
  let apiKey := FapshiConfig.apiKey config in
  let fromEnvironment :=
    let environment :=
      environmentOr (FapshiConfig.environment config)
                    (detectEnvironmentFromApiKey (FapshiConfig.apiKey config)) in
    mkFapshiClient
      (match environment with
       | live => "https://live.fapshi.com"
       | sandbox => "https://sandbox.fapshi.com"
       end)
      apiUser apiKey in
  match FapshiConfig.baseUrl config with
  | Some b =>
      if truthy (VStr b)
      then mkFapshiClient (replaceTrailingSlash b) apiUser apiKey
      else fromEnvironment
  | None => fromEnvironment
  end.

(** [createFapshiClient] of [src/index.ts]. *)
Definition createFapshiClient (config : FapshiConfig.t) : FapshiClient :=
  new config.

(** [value !== undefined && value !== null]. *)
Definition isSet (v : QueryValue) : bool :=
  match v with
  | QUndefined | QNull => false
  | QString _ | QNumber _ => true
  end.

(** The prefix of the error raised for a connection failure. *)
Definition networkErrorPrefix : string :=
  "Network error: Unable to connect to Fapshi API. ".

(** The error thrown by the catch clause of [request]: a [FapshiError] is
    rethrown as it is, an [Error] becomes a [FapshiError] without status
    code (with the network prefix when its message names a connection
    failure), anything else becomes the generic error. *)
Definition wrap (error : Exn) : FapshiError :=
  match error with
  | Fapshi e => e
  | Platform (ErrorObject msg) =>
      let errorMessage := if truthy (VStr msg) then msg else EmptyString in
      if includes errorMessage "failed"
         || includes errorMessage "fetch"
         || includes errorMessage "ENOTFOUND"
         || includes errorMessage "ECONNREFUSED"
         || includes errorMessage "ETIMEDOUT"
      then mkFapshiError (VStr (networkErrorPrefix ++ errorMessage)) None
      else mkFapshiError (VStr msg) None
  | Platform OtherValue =>
      mkFapshiError (VStr "An unexpected error occurred") None
  end.

(** The catch clause of [request]: every path throws. *)
Definition handle {A : Type} (error : Exn) : io A := Throw (Fapshi (wrap error)).

Section Client.

(** [String(value)] on a number (the engine's Number-to-string). *)
Variable numberToString : number -> string.

(** [String(value)] on a query value that passed the [isSet] test. *)
Definition stringOf (v : QueryValue) : string :=
  match v with
  | QString s => s
  | QNumber n => numberToString n
  | QUndefined => "undefined"
  | QNull => "null"
  end.

(** The body of the [forEach] over [Object.entries(queryParams)]. *)
Definition appendEntry (u : URL) (entry : string * QueryValue) : URL :=
  let (key, value) := entry in
  if isSet value then searchParams_append u key (stringOf value) else u.

(** The URL of a request: base URL and path, then the query parameters. *)
Definition buildUrl (this : FapshiClient) (path : string)
    (queryParams : option (list (string * QueryValue))) : URL :=
  let url := newURL (baseUrl this ++ path) in
  match queryParams with
  | Some entries => fold_left appendEntry entries url
  | None => url
  end.

(** The first half of [request]: URL, headers and options of the call.
    The body is sent only with POST, PUT and PATCH. *)
Definition prepare (this : FapshiClient) (method path : string)
    (body : option Body)
    (queryParams : option (list (string * QueryValue))) : HttpRequest :=
  let url := buildUrl this path queryParams in
  let headers :=
    [("Content-Type", "application/json");
     ("apiuser", apiUser this);
     ("apikey", apiKey this)] in
  let options_body :=
    match body with
    | Some b =>
        if (method =? "POST") || (method =? "PUT") || (method =? "PATCH")
        then Some b else None
    | None => None
    end in
  mkHttpRequest url method headers options_body.

(** The generic message of a failed call. *)
Definition fallbackMessage (status : Z) : string :=
  "API request failed with status " ++ showZ status.

(** Internal method to make API requests. *)
Definition request (this : FapshiClient) (method path : string)
    (body : option Body)
    (queryParams : option (list (string * QueryValue))) : io value :=
  tryCatch
    (response <- fetch (prepare this method path body queryParams) ;;
     data <- awaitJson response ;;
     if negb (ok response) then
       msg <- read data "message" ;;
       Throw (Fapshi (mkFapshiError
         (orElse msg (VStr (fallbackMessage (status response))))
         (Some (status response))))
     else Ret data)
    handle.

(** [!request.amount || request.amount < 100]. *)
Definition amountTooLow (amount : option number) : bool :=
  negb (truthy (ofNumber amount)) || lessThan (toNumber amount) (ofZ 100).

(** [throw new FapshiError(msg)]. *)
Definition localError {A : Type} (msg : string) : io A :=
  Throw (Fapshi (mkFapshiError (VStr msg) None)).

(** Generate a payment link. *)
Definition initiatePay (this : FapshiClient) (request_ : InitiatePayRequest.t)
  : io value :=
  if amountTooLow (InitiatePayRequest.amount request_) then
    localError "Amount must be at least 100"
  else
    request this "POST" "/initiate-pay" (Some (InitiatePayBody request_)) None.

(** Initiate a direct payment request. *)
Definition directPay (this : FapshiClient) (request_ : DirectPayRequest.t)
  : io value :=
  if amountTooLow (DirectPayRequest.amount request_) then
    localError "Amount must be at least 100"
  else if negb (truthy (ofString (DirectPayRequest.phone request_))) then
    localError "Phone number is required"
  else
    request this "POST" "/direct-pay" (Some (DirectPayBody request_)) None.

(** The error of a status lookup that found nothing. *)
Definition notFound (transId : string) : FapshiError :=
  mkFapshiError (VStr ("No transaction found with ID: " ++ transId)) (Some 404%Z).

(** Get the status of a payment by transaction id.  In
    [!transaction || !transaction.transId] the property is read only when
    [transaction] is truthy. *)
Definition getPaymentStatus (this : FapshiClient) (transId : string) : io value :=
  if negb (truthy (VStr transId)) then
    localError "Transaction ID is required"
  else
    transaction <- request this "GET" ("/payment-status/" ++ transId) None None ;;
    if negb (truthy transaction) then Throw (Fapshi (notFound transId))
    else
      id <- read transaction "transId" ;;
      if negb (truthy id) then Throw (Fapshi (notFound transId))
      else Ret transaction.

(** Expire a payment transaction. *)
Definition expirePay (this : FapshiClient) (request_ : ExpirePayRequest.t)
  : io value :=
  if negb (truthy (ofString (ExpirePayRequest.transId request_))) then
    localError "Transaction ID is required"
  else
    request this "POST" "/expire-pay" (Some (ExpirePayBody request_)) None.

(** The character class [[a-zA-Z0-9\-_]]. *)
Definition userIdChar (c : ascii) : bool :=
  inRange "a" "z" c || inRange "A" "Z" c || inRange "0" "9" c
  || Ascii.eqb c "-" || Ascii.eqb c "_".

(** [/^[a-zA-Z0-9\-_]{1,100}$/.test(userId)]. *)
Definition userIdPattern (userId : string) : bool :=
  testClassRepeat userIdChar 1 100 userId.

(** Get the transactions of a user id. *)
Definition getTransactionsByUserId (this : FapshiClient) (userId : string)
  : io value :=
  if negb (truthy (VStr userId)) then
    localError "User ID is required"
  else if negb (userIdPattern userId) then
    localError "User ID must match pattern: ^[a-zA-Z0-9\-_]{1,100}$"
  else
    request this "GET" ("/transaction/" ++ userId) None None.

(** [Object.entries(params)] for a parameter object whose properties were
    written in the order of the interface ([Object.entries] follows the
    caller's insertion order, so the order of this list is a convention
    and no property below depends on it); an omitted property is skipped
    by [appendEntry] just as an absent one would be. *)
Definition entries (params : SearchTransactionsParams.t)
  : list (string * QueryValue) :=
  let str (o : option string) :=
    match o with Some s => QString s | None => QUndefined end in
  let num (o : option number) :=
    match o with Some n => QNumber n | None => QUndefined end in
  [("status", str (SearchTransactionsParams.status params));
   ("medium", str (SearchTransactionsParams.medium params));
   ("start", str (SearchTransactionsParams.start params));
   ("end", str (SearchTransactionsParams.end_ params));
   ("amt", num (SearchTransactionsParams.amt params));
   ("limit", num (SearchTransactionsParams.limit params));
   ("sort", str (SearchTransactionsParams.sort params))].

(** [params?.limit]. *)
Definition limitOf (params : option SearchTransactionsParams.t) : option number :=
  match params with
  | Some p => SearchTransactionsParams.limit p
  | None => None
  end.

(** Search transactions by filters. *)
Definition searchTransactions (this : FapshiClient)
    (params : option SearchTransactionsParams.t) : io value :=
  let search :=
    request this "GET" "/search" None (option_map entries params) in
  match limitOf params with
  | Some limit =>
      if lessThan limit (ofZ 1) || greaterThan limit (ofZ 100) then
        localError "Limit must be between 1 and 100"
      else search
  | None => search
  end.

(** Get the service balance. *)
Definition getBalance (this : FapshiClient) : io value :=
  request this "GET" "/balance" None None.

(** Make a payout. *)
Definition payout (this : FapshiClient) (request_ : PayoutRequest.t) : io value :=
  if amountTooLow (PayoutRequest.amount request_) then
    localError "Amount must be at least 100"
  else if strictEquals (PayoutRequest.medium request_) "fapshi" then
    if negb (truthy (ofString (PayoutRequest.email request_))) then
      localError ("Email is required when medium is " ++ quoted "fapshi")
    else
      request this "POST" "/payout" (Some (PayoutBody request_)) None
  else
    if negb (truthy (ofString (PayoutRequest.phone request_))) then
      localError ("Phone is required when medium is not " ++ quoted "fapshi"
                  ++ " or not specified")
    else
      request this "POST" "/payout" (Some (PayoutBody request_)) None.

End Client.

(* ================================================================== *)
(** * Vocabulary of the properties                                      *)
(* ================================================================== *)

Definition liveUrl : string := "https://live.fapshi.com".
Definition sandboxUrl : string := "https://sandbox.fapshi.com".

(** [r] is [b] with its trailing slash removed, or [b] itself when [b]
    does not end with a slash. *)
Definition Stripped (b r : string) : Prop :=
  b = (r ++ "/")%string \/ ((forall t, b <> (t ++ "/")%string) /\ r = b).

(** A key of the live format: prefixed [FAK_] but not [FAK_TEST_]. *)
Definition LiveKey (key : string) : Prop :=
  startsWith key "FAK_" = true /\ startsWith key "FAK_TEST_" = false.

(** An optional string field that is absent or empty. *)
Definition Blank (o : option string) : Prop := o = None \/ o = Some EmptyString.

(** The amount is missing or less than 100. *)
Definition BelowMinimum (amount : option number) : Prop :=
  amount = None \/ exists a, amount = Some a /\ lessThan a (ofZ 100) = true.

(** The amount is a number that is at least 100. *)
Definition AtLeast100 (amount : option number) : Prop :=
  exists a, amount = Some a /\ greaterEq a (ofZ 100) = true.

(** The call raises a [FapshiError] without status code and, whatever the
    network would answer, sends nothing. *)
Definition NoRequest {A : Type} (m : io A) : Prop :=
  exists e, statusCode e = None /\
            forall net, run net m = ([], inl (Fapshi e)).

(** The first step of the call is the HTTP request [req]. *)
Definition Proceeds {A : Type} (m : io A) (req : HttpRequest) : Prop :=
  networkCall m = Some req /\
  forall net, exists out, run net m = ([req], out).

(** A Number-to-string for concrete runs: exact on [NaN], the infinities
    and the integers the client deals with. *)
Definition showNumber (n : number) : string :=
  match n with
  | NaN => "NaN"
  | Infinity neg => if neg then "-Infinity" else "Infinity"
  | Finite q => showZ (Qnum q / Zpos (Qden q))
  end.

(** A sandbox client and a network that answers every request alike. *)
Definition sandboxClient : FapshiClient :=
  new (FapshiConfig.mk "user" "FAK_TEST_key" None None).

Definition always (answer : FetchResult) : HttpRequest -> FetchResult :=
  fun _ => answer.

(** The transport-level failures named by the spec, and the error code
    by which Node reports each in the message of the error. *)
Inductive TransportFailure : Type :=
| DnsResolution
| ConnectionRefusal
| Timeout.

Definition errorCode (kind : TransportFailure) : string :=
  match kind with
  | DnsResolution => "ENOTFOUND"
  | ConnectionRefusal => "ECONNREFUSED"
  | Timeout => "ETIMEDOUT"
  end.

(** The request sent by a status lookup. *)
Definition statusRequest (nts : number -> string) (this : FapshiClient)
    (transId : string) : HttpRequest :=
  prepare nts this "GET" ("/payment-status/" ++ transId) None None.

(** The HTTP call for [req] succeeds: a 2xx response whose body parses
    to [data]. *)
Definition Succeeds (net : HttpRequest -> FetchResult) (req : HttpRequest)
    (data : value) : Prop :=
  exists r, net req = Resolves r /\ ok r = true /\ json r = inr data.

(** The status lookup sends its request and raises the 404 error. *)
Definition RaisesNotFound (nts : number -> string) (this : FapshiClient)
    (transId : string) (net : HttpRequest -> FetchResult) : Prop :=
  run net (getPaymentStatus nts this transId) =
  ([statusRequest nts this transId],
   inl (Fapshi (mkFapshiError
                  (VStr ("No transaction found with ID: " ++ transId))
                  (Some 404%Z)))).

(** What [Object.entries] and [String] make of the parameters that are set. *)
Definition setEntries (nts : number -> string)
    (queryParams : list (string * QueryValue)) : list (string * string) :=
  map (fun kv => (fst kv, stringOf nts (snd kv)))
      (filter (fun kv => isSet (snd kv)) queryParams).

(** A call of one of the public operations of the client. *)
Inductive Operation : Type :=
| InitiatePay (r : InitiatePayRequest.t)
| DirectPay (r : DirectPayRequest.t)
| GetPaymentStatus (transId : string)
| ExpirePay (r : ExpirePayRequest.t)
| GetTransactionsByUserId (userId : string)
| SearchTransactions (params : option SearchTransactionsParams.t)
| GetBalance
| Payout (r : PayoutRequest.t).

Definition perform (nts : number -> string) (this : FapshiClient)
    (op : Operation) : io value :=
  match op with
  | InitiatePay r => initiatePay nts this r
  | DirectPay r => directPay nts this r
  | GetPaymentStatus transId => getPaymentStatus nts this transId
  | ExpirePay r => expirePay nts this r
  | GetTransactionsByUserId userId => getTransactionsByUserId nts this userId
  | SearchTransactions params => searchTransactions nts this params
  | GetBalance => getBalance nts this
  | Payout r => payout nts this r
  end.

(** The endpoint of each operation: method, path, body and query. *)
Definition endpointMethod (op : Operation) : string :=
  match op with
  | InitiatePay _ | DirectPay _ | ExpirePay _ | Payout _ => "POST"
  | GetPaymentStatus _ | GetTransactionsByUserId _
  | SearchTransactions _ | GetBalance => "GET"
  end.

Definition endpointPath (op : Operation) : string :=
  match op with
  | InitiatePay _ => "/initiate-pay"
  | DirectPay _ => "/direct-pay"
  | GetPaymentStatus transId => "/payment-status/" ++ transId
  | ExpirePay _ => "/expire-pay"
  | GetTransactionsByUserId userId => "/transaction/" ++ userId
  | SearchTransactions _ => "/search"
  | GetBalance => "/balance"
  | Payout _ => "/payout"
  end.

Definition endpointBody (op : Operation) : option Body :=
  match op with
  | InitiatePay r => Some (InitiatePayBody r)
  | DirectPay r => Some (DirectPayBody r)
  | ExpirePay r => Some (ExpirePayBody r)
  | Payout r => Some (PayoutBody r)
  | GetPaymentStatus _ | GetTransactionsByUserId _
  | SearchTransactions _ | GetBalance => None
  end.

Definition endpointQuery (op : Operation)
  : option (list (string * QueryValue)) :=
  match op with
  | SearchTransactions params => option_map entries params
  | _ => None
  end.

Definition endpoint (nts : number -> string) (this : FapshiClient)
    (op : Operation) : HttpRequest :=
  prepare nts this (endpointMethod op) (endpointPath op)
          (endpointBody op) (endpointQuery op).

(** The call sends exactly the request [req] and settles to a value or to
    a [FapshiError], whatever the network answers. *)
Definition SendsOnce (m : io value) (req : HttpRequest) : Prop :=
  networkCall m = Some req /\
  forall net, exists out,
    run net m = ([req], out) /\ forall f, out <> inl (Platform f).

(** The message of the error names a connection failure for the catch
    clause of [request]. *)
Definition MentionsConnection (msg : string) : Prop :=
  includes msg "failed" = true \/ includes msg "fetch" = true \/
  includes msg "ENOTFOUND" = true \/ includes msg "ECONNREFUSED" = true \/
  includes msg "ETIMEDOUT" = true.

(** The query parameter of an optional filter. *)
Definition filterEntry (key : string) (shown : option string)
  : list (string * string) :=
  match shown with Some s => [(key, s)] | None => [] end.

(* ================================================================== *)
(** * Numbers and strings                                               *)
(* ================================================================== *)

Lemma amountTooLow_below (amount : option number) :
  BelowMinimum amount -> amountTooLow amount = true.
Proof.
  intros [-> | (a & -> & Hlt)]; unfold amountTooLow; simpl.
  - reflexivity.
  - rewrite Hlt. apply orb_true_r.
Qed.

Lemma amountTooLow_false (amount : option number) :
  amountTooLow amount = false <-> AtLeast100 amount.
Proof.
  unfold amountTooLow, AtLeast100, greaterEq.
  destruct amount as [[ | neg | q] | ]; simpl.
  - split; [discriminate | intros (a & [= <-] & H); discriminate].
  - split.
    + intros H. exists (Infinity neg). now rewrite H.
    + intros (a & [= <-] & H). simpl in H. now destruct neg.
  - unfold Qltb. rewrite negb_involutive. split.
    + intros H. apply orb_false_elim in H as [_ H].
      apply negb_false_iff in H. exists (Finite q). now split.
    + intros (a & [= <-] & H). simpl in H. rewrite H. simpl.
      rewrite orb_false_r. apply not_true_is_false. intros Hz.
      apply Qeq_bool_iff in Hz. apply Qle_bool_iff in H.
      rewrite Hz in H. revert H. unfold Qle. simpl. lia.
  - split; [discriminate | intros (a & [=] & _)].
Qed.

Lemma append_slash_nonempty (t : string) : (t ++ "/")%string <> EmptyString.
Proof. destruct t; discriminate. Qed.

Lemma replaceTrailingSlash_Stripped (b : string) :
  Stripped b (replaceTrailingSlash b).
Proof.
  induction b as [ | c rest IH].
  - right. split; [ | reflexivity].
    intros t H. symmetry in H. now apply append_slash_nonempty in H.
  - destruct rest as [ | c' rest'].
    + simpl. destruct (Ascii.eqb_spec c "/") as [-> | Hc].
      * now left.
      * right. split; [ | reflexivity].
        intros [ | a t] H; simpl in H.
        -- injection H as H. now apply Hc.
        -- injection H as _ H. symmetry in H. now apply append_slash_nonempty in H.
    + change (replaceTrailingSlash (String c (String c' rest')))
        with (String c (replaceTrailingSlash (String c' rest'))).
      destruct IH as [IH | [IH1 IH2]].
      * left. exact (f_equal (String c) IH).
      * right. rewrite IH2. split; [ | reflexivity].
        intros [ | a t] H; simpl in H.
        -- discriminate.
        -- injection H as _ H. now apply (IH1 t).
Qed.

Lemma truthy_ofString_false (o : option string) :
  truthy (ofString o) = false <-> Blank o.
Proof.
  unfold Blank. destruct o as [s | ]; simpl.
  - rewrite negb_false_iff, String.eqb_eq. split.
    + intros ->. now right.
    + now intros [H | [= ->]].
  - split; auto.
Qed.

Lemma truthy_VStr (s : string) : s <> EmptyString -> truthy (VStr s) = true.
Proof.
  intros H. simpl. apply negb_true_iff. now apply String.eqb_neq.
Qed.

Lemma strictEquals_true (o : option string) (s : string) :
  strictEquals o s = true <-> o = Some s.
Proof.
  destruct o as [x | ]; simpl.
  - rewrite String.eqb_eq. split; [now intros -> | now intros [= ->]].
  - split; discriminate.
Qed.

Lemma strictEquals_false (o : option string) (s : string) :
  strictEquals o s = false <-> o <> Some s.
Proof.
  rewrite <- strictEquals_true. now destruct (strictEquals o s).
Qed.

(* ================================================================== *)
(** * Shapes of computations                                            *)
(* ================================================================== *)

Lemma localError_NoRequest {A : Type} (msg : string) :
  NoRequest (@localError A msg).
Proof.
  exists (mkFapshiError (VStr msg) None). split; reflexivity.
Qed.

Lemma request_Proceeds nts this method path body qp :
  Proceeds (request nts this method path body qp)
           (prepare nts this method path body qp).
Proof.
  split; [reflexivity | ].
  intros net. unfold request, fetch, handle. cbn [bind tryCatch run].
  destruct (net (prepare nts this method path body qp)) as [f | r].
  - eexists; reflexivity.
  - cbn [bind tryCatch]. unfold awaitJson, read.
    destruct (json r) as [f | data]; cbn [bind tryCatch].
    + eexists; reflexivity.
    + destruct (negb (ok r)); cbn [bind tryCatch].
      * destruct (getProperty data "message") as [msg | v];
          cbn [bind tryCatch]; eexists; reflexivity.
      * eexists; reflexivity.
Qed.

Lemma NoRequest_run {A : Type} (m : io A) (net : HttpRequest -> FetchResult) :
  NoRequest m -> fst (run net m) = [].
Proof. intros (e & _ & H). now rewrite H. Qed.

Lemma Proceeds_not_NoRequest {A : Type} (m : io A) (req : HttpRequest) :
  Proceeds m req -> ~ NoRequest m.
Proof.
  intros [_ H] (e & _ & He).
  destruct (H (always (Rejects OtherValue))) as (out & Hout).
  rewrite He in Hout. discriminate.
Qed.

(* ================================================================== *)
(** * Construction: the resolved base URL                               *)
(* ================================================================== *)

Lemma detectEnvironmentFromApiKey_live (key : string) :
  detectEnvironmentFromApiKey key = live <-> LiveKey key.
Proof.
  unfold detectEnvironmentFromApiKey, LiveKey.
  destruct (startsWith key "FAK_TEST_"), (startsWith key "FAK_");
    split; try discriminate; try (intros [? ?]; discriminate); auto.
Qed.

(** An empty [baseUrl] is given, yet the base URL is resolved from the
    key prefix instead of being the (empty) override. *)
Lemma new_empty_baseUrl_counterexample :
  let config := FapshiConfig.mk "user" "FAK_key" None (Some EmptyString) in
  FapshiConfig.baseUrl config = Some EmptyString /\
  baseUrl (new config) = "https://live.fapshi.com" /\
  ~ Stripped EmptyString (baseUrl (new config)).
Proof.
  simpl. repeat split.
  intros [H | [_ H]]; discriminate.
Qed.

(** C2, amended.  For every configuration, the resolved base URL is the
    explicit [baseUrl] with its trailing slash stripped when [baseUrl] is
    given and not empty; otherwise (absent or empty [baseUrl]) it is the
    live URL when [environment] is [live], or when [environment] is absent
    and the key is prefixed [FAK_] but not [FAK_TEST_], and the sandbox URL
    in every other case. *)
Theorem new_baseUrl (config : FapshiConfig.t) :
  (forall b, FapshiConfig.baseUrl config = Some b -> b <> EmptyString ->
             Stripped b (baseUrl (new config))) /\
  (Blank (FapshiConfig.baseUrl config) ->
   (FapshiConfig.environment config = Some live \/
    (FapshiConfig.environment config = None /\
     LiveKey (FapshiConfig.apiKey config)) ->
    baseUrl (new config) = liveUrl) /\
   (~ (FapshiConfig.environment config = Some live \/
       (FapshiConfig.environment config = None /\
        LiveKey (FapshiConfig.apiKey config))) ->
    baseUrl (new config) = sandboxUrl)).
Proof.
  destruct config as [user key env base]. cbn [FapshiConfig.baseUrl
    FapshiConfig.environment FapshiConfig.apiKey]. split.
  - intros b -> Hb. unfold new. cbn [FapshiConfig.baseUrl].
    rewrite (truthy_VStr b Hb). cbn [baseUrl].
    apply replaceTrailingSlash_Stripped.
  - intros Hblank.
    assert (Henv : baseUrl (new (FapshiConfig.mk user key env base)) =
                   match environmentOr env (detectEnvironmentFromApiKey key) with
                   | live => liveUrl
                   | sandbox => sandboxUrl
                   end).
    { destruct Hblank as [-> | ->]; reflexivity. }
    rewrite Henv. clear Henv Hblank.
    pose proof (detectEnvironmentFromApiKey_live key) as Hkey.
    destruct env as [[ | ] | ]; cbn [environmentOr].
    + split; [ | reflexivity].
      intros [[=] | [[=] _]].
    + split; [reflexivity | ].
      intros H. exfalso. apply H. now left.
    + destruct (detectEnvironmentFromApiKey key).
      * split; [ | reflexivity].
        intros [[=] | [_ H]]. apply Hkey in H. discriminate.
      * split; [reflexivity | ].
        intros H. exfalso. apply H. right. split; [reflexivity | now apply Hkey].
Qed.

Lemma new_baseUrl_witness :
  Stripped "https://example.test/api/"
           (baseUrl (new (FapshiConfig.mk "user" "FAK_TEST_key" (Some live)
                                          (Some "https://example.test/api/")))) /\
  baseUrl (new (FapshiConfig.mk "user" "FAK_key" None None)) = liveUrl /\
  baseUrl (new (FapshiConfig.mk "user" "FAK_TEST_key" None (Some EmptyString)))
  = sandboxUrl.
Proof.
  split; [ | split].
  - apply (new_baseUrl (FapshiConfig.mk "user" "FAK_TEST_key" (Some live)
                                        (Some "https://example.test/api/"))).
    + reflexivity.
    + discriminate.
  - apply (new_baseUrl (FapshiConfig.mk "user" "FAK_key" None None)).
    + now left.
    + right. split; [reflexivity | split; reflexivity].
  - apply (new_baseUrl (FapshiConfig.mk "user" "FAK_TEST_key" None (Some EmptyString))).
    + now right.
    + intros [[=] | [_ [_ H]]]. discriminate.
Defined.

(* ================================================================== *)
(** * Local validation of amounts and payout fields                     *)
(* ================================================================== *)

(** C3.  In [initiatePay], [directPay] and [payout], an amount that is
    missing or less than 100 raises a [FapshiError] locally and no HTTP
    request is made; whenever a request is sent, the amount is a number
    that is at least 100. *)
Theorem amount_checked_before_network (nts : number -> string) (this : FapshiClient) :
  (forall r, BelowMinimum (InitiatePayRequest.amount r) ->
             NoRequest (initiatePay nts this r)) /\
  (forall r, BelowMinimum (DirectPayRequest.amount r) ->
             NoRequest (directPay nts this r)) /\
  (forall r, BelowMinimum (PayoutRequest.amount r) ->
             NoRequest (payout nts this r)) /\
  (forall r net, fst (run net (initiatePay nts this r)) <> [] ->
                 AtLeast100 (InitiatePayRequest.amount r)) /\
  (forall r net, fst (run net (directPay nts this r)) <> [] ->
                 AtLeast100 (DirectPayRequest.amount r)) /\
  (forall r net, fst (run net (payout nts this r)) <> [] ->
                 AtLeast100 (PayoutRequest.amount r)).
Proof.
  repeat split.
  - intros r H. unfold initiatePay. rewrite (amountTooLow_below _ H).
    apply localError_NoRequest.
  - intros r H. unfold directPay. rewrite (amountTooLow_below _ H).
    apply localError_NoRequest.
  - intros r H. unfold payout. rewrite (amountTooLow_below _ H).
    apply localError_NoRequest.
  - intros r net. unfold initiatePay.
    destruct (amountTooLow (InitiatePayRequest.amount r)) eqn:E.
    + intros H. now contradiction H.
    + intros _. now apply amountTooLow_false.
  - intros r net. unfold directPay.
    destruct (amountTooLow (DirectPayRequest.amount r)) eqn:E.
    + intros H. now contradiction H.
    + intros _. now apply amountTooLow_false.
  - intros r net. unfold payout.
    destruct (amountTooLow (PayoutRequest.amount r)) eqn:E.
    + intros H. now contradiction H.
    + intros _. now apply amountTooLow_false.
Qed.

Lemma amount_checked_before_network_witness :
  NoRequest (initiatePay showNumber sandboxClient
               (InitiatePayRequest.mk (Some (ofZ 50)) None None None None None)) /\
  NoRequest (directPay showNumber sandboxClient
               (DirectPayRequest.mk None (Some "670000000") None None None None None None)) /\
  NoRequest (payout showNumber sandboxClient
               (PayoutRequest.mk (Some (Finite (199 # 2))) (Some "670000000")
                                 None None None None None None)) /\
  AtLeast100 (Some (ofZ 1000)) /\
  AtLeast100 (Some (ofZ 100)) /\
  AtLeast100 (Some (Infinity false)).
Proof.
  destruct (amount_checked_before_network showNumber sandboxClient)
    as (H1 & H2 & H3 & H4 & H5 & H6).
  repeat split.
  - apply H1. right. exists (ofZ 50). split; reflexivity.
  - apply H2. now left.
  - apply H3. right. exists (Finite (199 # 2)). split; reflexivity.
  - apply (H4 (InitiatePayRequest.mk (Some (ofZ 1000)) None None None None None)
              (always (Rejects OtherValue))).
    discriminate.
  - apply (H5 (DirectPayRequest.mk (Some (ofZ 100)) (Some "670000000")
                                   None None None None None None)
              (always (Rejects OtherValue))).
    discriminate.
  - apply (H6 (PayoutRequest.mk (Some (Infinity false)) (Some "670000000")
                                None None None None None None)
              (always (Rejects OtherValue))).
    discriminate.
Defined.

(** In a payout to a Fapshi account the email is present, as the empty
    string, and the call still fails locally. *)
Lemma payout_empty_email_counterexample :
  let r := PayoutRequest.mk (Some (ofZ 100)) None (Some "fapshi") None
                            (Some EmptyString) None None None in
  AtLeast100 (PayoutRequest.amount r) /\
  PayoutRequest.medium r = Some "fapshi" /\
  PayoutRequest.email r = Some EmptyString /\
  failsLocally (payout showNumber sandboxClient r) =
  Some (mkFapshiError
          (VStr ("Email is required when medium is " ++ quoted "fapshi")) None) /\
  networkCall (payout showNumber sandboxClient r) = None /\
  NoRequest (payout showNumber sandboxClient r).
Proof.
  repeat split.
  - exists (ofZ 100). split; reflexivity.
  - eexists. split; [ | intros net; reflexivity]. reflexivity.
Qed.

(** C4, amended.  For every payout with amount at least 100: with medium
    [fapshi], a missing or empty email fails locally and a non-empty email
    lets the request proceed to the network, phone or no phone; with
    medium unset or different from [fapshi], a missing or empty phone
    fails locally and a non-empty phone lets the request proceed. *)
Theorem payout_conditional_fields (nts : number -> string) (this : FapshiClient)
    (r : PayoutRequest.t) :
  AtLeast100 (PayoutRequest.amount r) ->
  let sent := prepare nts this "POST" "/payout" (Some (PayoutBody r)) None in
  (PayoutRequest.medium r = Some "fapshi" ->
   (Blank (PayoutRequest.email r) -> NoRequest (payout nts this r)) /\
   (forall e, PayoutRequest.email r = Some e -> e <> EmptyString ->
              Proceeds (payout nts this r) sent)) /\
  (PayoutRequest.medium r <> Some "fapshi" ->
   (Blank (PayoutRequest.phone r) -> NoRequest (payout nts this r)) /\
   (forall p, PayoutRequest.phone r = Some p -> p <> EmptyString ->
              Proceeds (payout nts this r) sent)).
Proof.
  intros Hamount sent. apply amountTooLow_false in Hamount.
  unfold payout. rewrite Hamount. split.
  - intros Hm. apply strictEquals_true in Hm. rewrite Hm. split.
    + intros Hb. apply truthy_ofString_false in Hb. rewrite Hb.
      apply localError_NoRequest.
    + intros e He Hne. rewrite He. cbn [ofString].
      rewrite (truthy_VStr e Hne). apply request_Proceeds.
  - intros Hm. apply strictEquals_false in Hm. rewrite Hm. split.
    + intros Hb. apply truthy_ofString_false in Hb. rewrite Hb.
      apply localError_NoRequest.
    + intros p Hp Hne. rewrite Hp. cbn [ofString].
      rewrite (truthy_VStr p Hne). apply request_Proceeds.
Qed.

Lemma payout_conditional_fields_witness :
  Proceeds
    (payout showNumber sandboxClient
       (PayoutRequest.mk (Some (ofZ 5000)) None (Some "fapshi") None
                         (Some "recipient@example.com") None None None))
    (prepare showNumber sandboxClient "POST" "/payout"
       (Some (PayoutBody
          (PayoutRequest.mk (Some (ofZ 5000)) None (Some "fapshi") None
                            (Some "recipient@example.com") None None None)))
       None) /\
  NoRequest
    (payout showNumber sandboxClient
       (PayoutRequest.mk (Some (ofZ 5000)) None (Some "orange money") None
                         (Some "recipient@example.com") None None None)).
Proof.
  split.
  - refine (proj2 (proj1 (payout_conditional_fields showNumber sandboxClient _ _) _) _ _ _).
    + exists (ofZ 5000). split; reflexivity.
    + reflexivity.
    + reflexivity.
    + discriminate.
  - refine (proj1 (proj2 (payout_conditional_fields showNumber sandboxClient _ _) _) _).
    + exists (ofZ 5000). split; reflexivity.
    + discriminate.
    + now left.
Defined.

(* ================================================================== *)
(** * Outcomes of the shared request operation                          *)
(* ================================================================== *)

Lemma run_bind {A B : Type} (net : HttpRequest -> FetchResult)
    (m : io A) (f : A -> io B) :
  run net (bind m f) =
  match run net m with
  | (sent, inl e) => (sent, inl e)
  | (sent, inr a) => (sent ++ fst (run net (f a)), snd (run net (f a)))
  end.
Proof.
  induction m as [a | e | req k IH]; cbn [bind run].
  - now destruct (run net (f a)).
  - reflexivity.
  - rewrite IH. destruct (run net (k (net req))) as [sent [e | a]]; reflexivity.
Qed.

Section RequestOutcomes.

Variable nts : number -> string.
Variable this : FapshiClient.
Variables method path : string.
Variable body : option Body.
Variable queryParams : option (list (string * QueryValue)).
Variable net : HttpRequest -> FetchResult.

Let sent := prepare nts this method path body queryParams.
Let call := request nts this method path body queryParams.

Lemma request_rejected (f : Foreign) :
  net sent = Rejects f ->
  run net call = ([sent], inl (Fapshi (wrap (Platform f)))).
Proof.
  intros H. unfold call, request, fetch, handle. cbn [bind tryCatch run].
  fold sent. rewrite H. reflexivity.
Qed.

Lemma request_unparsed (r : Response) (f : Foreign) :
  net sent = Resolves r -> json r = inl f ->
  run net call = ([sent], inl (Fapshi (wrap (Platform f)))).
Proof.
  intros H Hj. unfold call, request, fetch, handle. cbn [bind tryCatch run].
  fold sent. rewrite H. cbn [bind tryCatch]. unfold awaitJson. rewrite Hj.
  reflexivity.
Qed.

Lemma request_ok (r : Response) (data : value) :
  net sent = Resolves r -> json r = inr data -> ok r = true ->
  run net call = ([sent], inr data).
Proof.
  intros H Hj Hok. unfold call, request, fetch, handle. cbn [bind tryCatch run].
  fold sent. rewrite H. cbn [bind tryCatch]. unfold awaitJson. rewrite Hj.
  cbn [bind tryCatch]. rewrite Hok. reflexivity.
Qed.

Lemma request_not_ok (r : Response) (data v : value) :
  net sent = Resolves r -> json r = inr data -> ok r = false ->
  getProperty data "message" = inr v ->
  run net call =
  ([sent], inl (Fapshi (mkFapshiError
                          (orElse v (VStr (fallbackMessage (status r))))
                          (Some (status r))))).
Proof.
  intros H Hj Hok Hv. unfold call, request, fetch, handle. cbn [bind tryCatch run].
  fold sent. rewrite H. cbn [bind tryCatch]. unfold awaitJson. rewrite Hj.
  cbn [bind tryCatch]. rewrite Hok. cbn [negb]. unfold read. rewrite Hv.
  reflexivity.
Qed.

Lemma request_not_ok_unreadable (r : Response) (data : value) (msg : string) :
  net sent = Resolves r -> json r = inr data -> ok r = false ->
  getProperty data "message" = inl msg ->
  run net call = ([sent], inl (Fapshi (wrap (Platform (ErrorObject msg))))).
Proof.
  intros H Hj Hok Hv. unfold call, request, fetch, handle. cbn [bind tryCatch run].
  fold sent. rewrite H. cbn [bind tryCatch]. unfold awaitJson. rewrite Hj.
  cbn [bind tryCatch]. rewrite Hok. cbn [negb]. unfold read. rewrite Hv.
  reflexivity.
Qed.

(** A value returned by [request] is the parsed body of a 2xx response. *)
Lemma request_returns (data : value) :
  snd (run net call) = inr data ->
  exists r, net sent = Resolves r /\ json r = inr data /\ ok r = true.
Proof.
  intros Hrun. destruct (net sent) as [f | r] eqn:H.
  - rewrite (request_rejected f H) in Hrun. discriminate.
  - destruct (json r) as [f | d] eqn:Hj.
    + rewrite (request_unparsed r f H Hj) in Hrun. discriminate.
    + destruct (ok r) eqn:Hok.
      * rewrite (request_ok r d H Hj Hok) in Hrun. injection Hrun as <-.
        now exists r.
      * destruct (getProperty d "message") as [msg | v] eqn:Hv.
        -- rewrite (request_not_ok_unreadable r d msg H Hj Hok Hv) in Hrun.
           discriminate.
        -- rewrite (request_not_ok r d v H Hj Hok Hv) in Hrun. discriminate.
Qed.

End RequestOutcomes.

Lemma wrap_platform_statusCode (f : Foreign) : statusCode (wrap (Platform f)) = None.
Proof.
  destruct f as [msg | ]; cbn [wrap]; [ | reflexivity].
  now destruct (_ || _).
Qed.

Lemma errorMessage_same (msg : string) :
  (if truthy (VStr msg) then msg else EmptyString) = msg.
Proof. now destruct msg. Qed.

Lemma prefix_refl (s : string) : prefix s s = true.
Proof.
  induction s as [ | c s IH]; [reflexivity | ].
  simpl. destruct (ascii_dec c c) as [_ | H]; [exact IH | now contradiction H].
Qed.

Lemma includes_append (a b : string) : includes (a ++ b) b = true.
Proof.
  induction a as [ | c a IH].
  - destruct b; simpl.
    + reflexivity.
    + change (prefix (String a b) (String a b) || includes b (String a b) = true).
      now rewrite prefix_refl.
  - cbn [String.append includes]. rewrite IH. apply orb_true_r.
Qed.

Lemma append_length (a b : string) :
  String.length (a ++ b) = (String.length a + String.length b)%nat.
Proof.
  induction a as [ | c a IH]; [reflexivity | ]. simpl. now rewrite IH.
Qed.

Lemma append_nonempty_neq (a b : string) :
  a <> EmptyString -> (a ++ b)%string <> b.
Proof.
  intros Ha H. apply (f_equal String.length) in H. rewrite append_length in H.
  destruct a; [now contradiction Ha | simpl in H; lia].
Qed.

Lemma network_message_neq (msg : string) :
  VStr ("Network error: Unable to connect to Fapshi API. " ++ msg) <> VStr msg.
Proof.
  intros Heq.
  apply (append_nonempty_neq "Network error: Unable to connect to Fapshi API. " msg).
  - discriminate.
  - congruence.
Qed.

(** C6.  When the HTTP call fails at the transport level (the error's
    message carries the code of a DNS resolution failure, a refused
    connection or a timeout), [request] raises a [FapshiError] whose
    message is [Network error: Unable to connect to Fapshi API. ] followed
    by the error's message (and so is not the bare message of the error)
    and whose status code is absent; no rejection of the call ever yields
    an error with a status code. *)
Theorem request_transport_failure (nts : number -> string) (this : FapshiClient)
    (method path : string) (body : option Body)
    (queryParams : option (list (string * QueryValue)))
    (net : HttpRequest -> FetchResult) :
  let sent := prepare nts this method path body queryParams in
  let call := request nts this method path body queryParams in
  (forall kind msg,
     net sent = Rejects (ErrorObject msg) ->
     includes msg (errorCode kind) = true ->
     run net call =
     ([sent],
      inl (Fapshi (mkFapshiError
                     (VStr ("Network error: Unable to connect to Fapshi API. "
                            ++ msg))
                     None))) /\
     VStr ("Network error: Unable to connect to Fapshi API. " ++ msg) <> VStr msg) /\
  (forall f,
     net sent = Rejects f ->
     exists e, run net call = ([sent], inl (Fapshi e)) /\ statusCode e = None).
Proof.
  intros sent call. split.
  - intros kind msg H Hcode. split.
    + unfold call, sent.
      rewrite (request_rejected _ _ _ _ _ _ _ _ H). cbn [wrap].
      rewrite errorMessage_same.
      replace (_ || _) with true; [reflexivity | ].
      symmetry. destruct kind; cbn [errorCode] in Hcode; rewrite Hcode;
        rewrite ?orb_true_r; reflexivity.
    + apply network_message_neq.
  - intros f H. exists (wrap (Platform f)). split.
    + apply (request_rejected _ _ _ _ _ _ _ _ H).
    + apply wrap_platform_statusCode.
Qed.

Lemma request_transport_failure_witness :
  run (always (Rejects (ErrorObject
         "request to https://sandbox.fapshi.com/balance failed, reason: connect ECONNREFUSED 127.0.0.1:443")))
      (request showNumber sandboxClient "GET" "/balance" None None) =
  ([prepare showNumber sandboxClient "GET" "/balance" None None],
   inl (Fapshi (mkFapshiError
     (VStr "Network error: Unable to connect to Fapshi API. request to https://sandbox.fapshi.com/balance failed, reason: connect ECONNREFUSED 127.0.0.1:443")
     None))) /\
  exists e,
    run (always (Rejects OtherValue))
        (request showNumber sandboxClient "GET" "/balance" None None) =
    ([prepare showNumber sandboxClient "GET" "/balance" None None], inl (Fapshi e)) /\
    statusCode e = None.
Proof.
  split.
  - apply (proj1 (request_transport_failure showNumber sandboxClient "GET" "/balance"
                    None None
                    (always (Rejects (ErrorObject
                       "request to https://sandbox.fapshi.com/balance failed, reason: connect ECONNREFUSED 127.0.0.1:443"))))
                 ConnectionRefusal
                 "request to https://sandbox.fapshi.com/balance failed, reason: connect ECONNREFUSED 127.0.0.1:443").
    + reflexivity.
    + reflexivity.
  - apply (proj2 (request_transport_failure showNumber sandboxClient "GET" "/balance"
                    None None (always (Rejects OtherValue))) OtherValue).
    reflexivity.
Defined.

(** The server's [message] property is present, as the empty string, and
    the error carries the generic message instead. *)
Lemma request_empty_message_counterexample :
  let data := VObj [("message", VStr EmptyString)] in
  let r := mkResponse 400 (inr data) in
  ok r = false /\
  hasProperty data "message" = true /\
  getProperty data "message" = inr (VStr EmptyString) /\
  snd (run (always (Resolves r))
           (request showNumber sandboxClient "GET" "/balance" None None)) =
  inl (Fapshi (mkFapshiError (VStr "API request failed with status 400")
                             (Some 400%Z))) /\
  VStr "API request failed with status 400" <> VStr EmptyString.
Proof.
  repeat split. discriminate.
Qed.

(** A non-2xx response whose body is not JSON, or is [null], surfaces
    without its status code. *)
Example request_unparsed_body_loses_status :
  snd (run (always (Resolves (mkResponse 502
              (inl (ErrorObject "invalid json response body")))))
           (request showNumber sandboxClient "GET" "/balance" None None)) =
  inl (Fapshi (mkFapshiError (VStr "invalid json response body") None)) /\
  snd (run (always (Resolves (mkResponse 500 (inr VNull))))
           (request showNumber sandboxClient "GET" "/balance" None None)) =
  inl (Fapshi (mkFapshiError
                 (VStr "Cannot read properties of null (reading 'message')") None)).
Proof. split; reflexivity. Qed.

(** C1, amended.  For every response with a non-2xx status whose body
    parses as JSON other than [null], [request] raises a [FapshiError]
    whose status code is the HTTP status and whose message is the body's
    [message] property when that property is truthy (present and not
    empty), and otherwise the generic message, which mentions the status. *)
Theorem request_non2xx (nts : number -> string) (this : FapshiClient)
    (method path : string) (body : option Body)
    (queryParams : option (list (string * QueryValue)))
    (net : HttpRequest -> FetchResult) (r : Response) (data v : value) :
  let sent := prepare nts this method path body queryParams in
  net sent = Resolves r ->
  ok r = false ->
  json r = inr data ->
  getProperty data "message" = inr v ->
  exists e,
    run net (request nts this method path body queryParams)
    = ([sent], inl (Fapshi e)) /\
    statusCode e = Some (status r) /\
    (truthy v = true -> message e = v) /\
    (truthy v = false ->
     message e = VStr ("API request failed with status " ++ showZ (status r)) /\
     includes ("API request failed with status " ++ showZ (status r))
              (showZ (status r)) = true).
Proof.
  intros sent H Hok Hj Hv. eexists. split; [ | split; [ | split]].
  - apply (request_not_ok _ _ _ _ _ _ _ r data v H Hj Hok Hv).
  - reflexivity.
  - intros Ht. cbn [message]. unfold orElse. now rewrite Ht.
  - intros Ht. cbn [message]. unfold orElse. rewrite Ht. split.
    + reflexivity.
    + apply includes_append.
Qed.

Lemma request_non2xx_witness :
  exists e,
    run (always (Resolves (mkResponse 403
                   (inr (VObj [("message", VStr "Invalid credentials")])))))
        (request showNumber sandboxClient "GET" "/balance" None None)
    = ([prepare showNumber sandboxClient "GET" "/balance" None None],
       inl (Fapshi e)) /\
    statusCode e = Some 403%Z /\
    message e = VStr "Invalid credentials".
Proof.
  destruct (request_non2xx showNumber sandboxClient "GET" "/balance" None None
              (always (Resolves (mkResponse 403
                 (inr (VObj [("message", VStr "Invalid credentials")])))))
              (mkResponse 403 (inr (VObj [("message", VStr "Invalid credentials")])))
              (VObj [("message", VStr "Invalid credentials")])
              (VStr "Invalid credentials")
              eq_refl eq_refl eq_refl eq_refl)
    as (e & Hrun & Hstatus & Hmsg & _).
  exists e. split; [exact Hrun | split; [exact Hstatus | ]].
  apply Hmsg. reflexivity.
Defined.

(* ================================================================== *)
(** * Status lookup                                                     *)
(* ================================================================== *)

Lemma truthy_getProperty (data : value) (k msg : string) :
  truthy data = true -> getProperty data k <> inl msg.
Proof. destruct data; simpl; discriminate. Qed.

Lemma hasProperty_false (data : value) (k : string) :
  hasProperty data k = false ->
  truthy data = false \/ getProperty data k = inr VUndefined.
Proof.
  destruct data; simpl; auto.
  destruct (lookup k props); [discriminate | auto].
Qed.

Lemma truthy_property_is_own (data id : value) (k : string) :
  getProperty data k = inr id -> truthy id = true ->
  exists props, data = VObj props /\ lookup k props = Some id.
Proof.
  destruct data; simpl; intros [= <-] Ht; try discriminate.
  exists props. split; [reflexivity | ].
  destruct (lookup k props); [reflexivity | discriminate].
Qed.

(** What a status lookup settles to once the HTTP call succeeded. *)
Lemma getPaymentStatus_settled nts this transId net data :
  transId <> EmptyString ->
  Succeeds net (statusRequest nts this transId) data ->
  run net (getPaymentStatus nts this transId) =
  ([statusRequest nts this transId],
   if truthy data
      && match getProperty data "transId" with
         | inr id => truthy id
         | inl _ => false
         end
   then inr data
   else inl (Fapshi (notFound transId))).
Proof.
  intros Hid (r & H & Hok & Hj). unfold getPaymentStatus.
  rewrite (truthy_VStr transId Hid). cbn [negb]. rewrite run_bind.
  unfold statusRequest in *.
  rewrite (request_ok _ _ _ _ _ _ _ r data H Hj Hok).
  destruct (truthy data) eqn:Ht; cbn [negb andb]; [ | reflexivity].
  unfold read. destruct (getProperty data "transId") as [msg | id] eqn:Hg.
  - now apply truthy_getProperty in Hg.
  - cbn [bind]. now destruct (truthy id).
Qed.

Lemma always_Succeeds (code : Z) (data : value) (req : HttpRequest) :
  (200 <= code < 300)%Z ->
  Succeeds (always (Resolves (mkResponse code (inr data)))) req data.
Proof.
  intros H. exists (mkResponse code (inr data)). repeat split.
  unfold ok. cbn [status]. apply andb_true_iff. split.
  - apply Z.leb_le. lia.
  - apply Z.ltb_lt. lia.
Qed.

(** The result carries a [transId], the empty string, and the lookup
    raises the 404 error instead of returning it. *)
Lemma getPaymentStatus_empty_transId_counterexample :
  let data := VObj [("transId", VStr EmptyString); ("status", VStr "PENDING")] in
  let r := mkResponse 200 (inr data) in
  ok r = true /\
  hasProperty data "transId" = true /\
  run (always (Resolves r)) (getPaymentStatus showNumber sandboxClient "abc") =
  ([statusRequest showNumber sandboxClient "abc"],
   inl (Fapshi (mkFapshiError (VStr "No transaction found with ID: abc")
                              (Some 404%Z)))).
Proof. repeat split. Qed.

(** C5, amended.  For every call of [getPaymentStatus] with a present
    (non-empty) [transId] whose HTTP request succeeds: if the result lacks
    a [transId] property, the operation raises a [FapshiError] with status
    code 404; if the result carries a truthy [transId] (for a string, a
    non-empty one), that result is returned unchanged. *)
Theorem getPaymentStatus_result (nts : number -> string) (this : FapshiClient)
    (transId : string) (net : HttpRequest -> FetchResult) (data : value) :
  transId <> EmptyString ->
  Succeeds net (statusRequest nts this transId) data ->
  (hasProperty data "transId" = false ->
   exists e,
     run net (getPaymentStatus nts this transId)
     = ([statusRequest nts this transId], inl (Fapshi e)) /\
     statusCode e = Some 404%Z) /\
  (forall props id,
     data = VObj props -> lookup "transId" props = Some id -> truthy id = true ->
     run net (getPaymentStatus nts this transId)
     = ([statusRequest nts this transId], inr data)).
Proof.
  intros Hid Hsucc.
  rewrite (getPaymentStatus_settled nts this transId net data Hid Hsucc).
  split.
  - intros Hp. exists (notFound transId). split; [ | reflexivity].
    destruct (hasProperty_false _ _ Hp) as [Ht | Hg].
    + now rewrite Ht.
    + rewrite Hg. cbn [truthy]. now rewrite andb_false_r.
  - intros props id -> Hl Ht. cbn [truthy getProperty andb]. rewrite Hl.
    now rewrite Ht.
Qed.

Lemma getPaymentStatus_result_witness :
  (exists e,
     run (always (Resolves (mkResponse 200 (inr (VObj [("message", VStr "none")])))))
         (getPaymentStatus showNumber sandboxClient "abc")
     = ([statusRequest showNumber sandboxClient "abc"], inl (Fapshi e)) /\
     statusCode e = Some 404%Z) /\
  run (always (Resolves (mkResponse 200
         (inr (VObj [("transId", VStr "abc"); ("status", VStr "SUCCESSFUL")])))))
      (getPaymentStatus showNumber sandboxClient "abc")
  = ([statusRequest showNumber sandboxClient "abc"],
     inr (VObj [("transId", VStr "abc"); ("status", VStr "SUCCESSFUL")])).
Proof.
  split.
  - refine (proj1 (getPaymentStatus_result showNumber sandboxClient "abc"
                     (always (Resolves (mkResponse 200
                        (inr (VObj [("message", VStr "none")])))))
                     (VObj [("message", VStr "none")]) _ _) eq_refl).
    + discriminate.
    + apply always_Succeeds. lia.
  - refine (proj2 (getPaymentStatus_result showNumber sandboxClient "abc"
                     (always (Resolves (mkResponse 200
                        (inr (VObj [("transId", VStr "abc"); ("status", VStr "SUCCESSFUL")])))))
                     (VObj [("transId", VStr "abc"); ("status", VStr "SUCCESSFUL")])
                     _ _)
                  [("transId", VStr "abc"); ("status", VStr "SUCCESSFUL")]
                  (VStr "abc") eq_refl eq_refl eq_refl).
    + discriminate.
    + apply always_Succeeds. lia.
Defined.

(** C10.  After a successful HTTP call, [getPaymentStatus] raises the 404
    [FapshiError] whenever the result or its [transId] is falsy, in
    particular when the whole body is [null] and when [transId] is present
    but is the empty string; so a returned transaction is always an object
    whose [transId] is truthy, hence not the empty string. *)
Theorem getPaymentStatus_falsy_transId (nts : number -> string)
    (this : FapshiClient) (transId : string) (net : HttpRequest -> FetchResult) :
  (transId <> EmptyString ->
   (forall data,
      Succeeds net (statusRequest nts this transId) data ->
      truthy data = false ->
      RaisesNotFound nts this transId net) /\
   (forall data id,
      Succeeds net (statusRequest nts this transId) data ->
      getProperty data "transId" = inr id -> truthy id = false ->
      RaisesNotFound nts this transId net) /\
   (Succeeds net (statusRequest nts this transId) VNull ->
    RaisesNotFound nts this transId net) /\
   (forall props,
      Succeeds net (statusRequest nts this transId) (VObj props) ->
      lookup "transId" props = Some (VStr EmptyString) ->
      RaisesNotFound nts this transId net)) /\
  (forall t,
     snd (run net (getPaymentStatus nts this transId)) = inr t ->
     exists props id,
       t = VObj props /\ lookup "transId" props = Some id /\
       truthy id = true /\ id <> VStr EmptyString).
Proof.
  split.
  - intros Hid.
    assert (Hdata : forall data,
               Succeeds net (statusRequest nts this transId) data ->
               truthy data = false -> RaisesNotFound nts this transId net).
    { intros data Hs Ht. unfold RaisesNotFound.
      rewrite (getPaymentStatus_settled nts this transId net data Hid Hs).
      now rewrite Ht. }
    assert (Hprop : forall data id,
               Succeeds net (statusRequest nts this transId) data ->
               getProperty data "transId" = inr id -> truthy id = false ->
               RaisesNotFound nts this transId net).
    { intros data id Hs Hg Ht. unfold RaisesNotFound.
      rewrite (getPaymentStatus_settled nts this transId net data Hid Hs).
      rewrite Hg, Ht. now rewrite andb_false_r. }
    split; [exact Hdata | split; [exact Hprop | split]].
    + intros Hs. now apply (Hdata VNull).
    + intros props Hs Hl. apply (Hprop (VObj props) (VStr EmptyString) Hs).
      * cbn [getProperty]. now rewrite Hl.
      * reflexivity.
  - intros t. unfold getPaymentStatus.
    destruct (truthy (VStr transId)); cbn [negb]; [ | discriminate].
    rewrite run_bind.
    destruct (run net (request nts this "GET" ("/payment-status/" ++ transId)
                               None None)) as [sent [e | a]];
      [discriminate | ].
    cbn [snd]. destruct (truthy a) eqn:Ha; cbn [negb]; [ | discriminate].
    unfold read. destruct (getProperty a "transId") as [msg | id] eqn:Hg;
      [discriminate | ].
    cbn [bind]. destruct (truthy id) eqn:Hid; cbn [negb]; [ | discriminate].
    intros [= <-].
    destruct (truthy_property_is_own a id "transId" Hg Hid) as (props & -> & Hl).
    exists props, id. repeat split; try assumption.
    intros ->. discriminate.
Qed.

Lemma getPaymentStatus_falsy_transId_witness :
  RaisesNotFound showNumber sandboxClient "abc"
    (always (Resolves (mkResponse 200 (inr VNull)))) /\
  RaisesNotFound showNumber sandboxClient "abc"
    (always (Resolves (mkResponse 200
       (inr (VObj [("transId", VStr EmptyString)]))))) /\
  exists props id,
    VObj [("transId", VStr "abc")] = VObj props /\
    lookup "transId" props = Some id /\ truthy id = true /\ id <> VStr EmptyString.
Proof.
  split; [ | split].
  - destruct (getPaymentStatus_falsy_transId showNumber sandboxClient "abc"
                (always (Resolves (mkResponse 200 (inr VNull)))))
      as (H & _).
    apply H.
    + discriminate.
    + apply always_Succeeds. lia.
  - destruct (getPaymentStatus_falsy_transId showNumber sandboxClient "abc"
                (always (Resolves (mkResponse 200
                   (inr (VObj [("transId", VStr EmptyString)]))))))
      as (H & _).
    apply (proj2 (proj2 (proj2 (H ltac:(discriminate))))
                 [("transId", VStr EmptyString)]).
    + apply always_Succeeds. lia.
    + reflexivity.
  - destruct (getPaymentStatus_falsy_transId showNumber sandboxClient "abc"
                (always (Resolves (mkResponse 200
                   (inr (VObj [("transId", VStr "abc")]))))))
      as (_ & H).
    apply H. reflexivity.
Defined.

(* ================================================================== *)
(** * User ids, search limits and query parameters                      *)
(* ================================================================== *)

Lemma testClassRepeat_eq (cls : ascii -> bool) (s : string) :
  forall lo hi,
    testClassRepeat cls lo hi s =
    (lo <=? String.length s)%nat && (String.length s <=? hi)%nat
    && forallb cls (list_ascii_of_string s).
Proof.
  induction s as [ | c rest IH]; intros lo hi.
  - cbn [testClassRepeat String.length list_ascii_of_string forallb].
    rewrite andb_true_r. cbn [Nat.leb]. rewrite andb_true_r.
    now destruct lo.
  - cbn [testClassRepeat String.length list_ascii_of_string forallb].
    destruct hi as [ | hi'].
    + cbn [Nat.leb]. now rewrite andb_false_r.
    + rewrite IH.
      replace (Nat.pred lo <=? String.length rest)%nat
        with (lo <=? S (String.length rest))%nat by now destruct lo.
      change (S (String.length rest) <=? S hi')%nat
        with (String.length rest <=? hi')%nat.
      destruct (cls c), (lo <=? S (String.length rest))%nat,
        (String.length rest <=? hi')%nat; reflexivity.
Qed.

Lemma forallb_false {A : Type} (f : A -> bool) (l : list A) :
  forallb f l = false <-> exists x, In x l /\ f x = false.
Proof.
  induction l as [ | a l IH]; simpl.
  - split; [discriminate | now intros (x & [] & _)].
  - rewrite andb_false_iff, IH. split.
    + intros [Ha | (x & Hx & Hf)]; [exists a | exists x]; auto.
    + intros (x & [<- | Hx] & Hf); [now left | right; now exists x].
Qed.

Lemma userIdPattern_true (userId : string) :
  userIdPattern userId = true <->
  (1 <= String.length userId <= 100)%nat /\
  forall c, In c (list_ascii_of_string userId) -> userIdChar c = true.
Proof.
  unfold userIdPattern. rewrite testClassRepeat_eq, !andb_true_iff.
  rewrite !Nat.leb_le, forallb_forall. tauto.
Qed.

Lemma userIdPattern_false (userId : string) :
  userIdPattern userId = false <->
  userId = EmptyString \/
  (exists c, In c (list_ascii_of_string userId) /\ userIdChar c = false) \/
  (100 < String.length userId)%nat.
Proof.
  unfold userIdPattern. rewrite testClassRepeat_eq, !andb_false_iff.
  rewrite !Nat.leb_gt, forallb_false. split.
  - intros [[H | H] | H]; [ | auto | auto].
    left. destruct userId; [reflexivity | simpl in H; lia].
  - intros [-> | [H | H]]; [left; left; simpl; lia | auto | auto].
Qed.

(** C7.  [getTransactionsByUserId] fails locally, without any HTTP
    request, exactly when the user id is empty, or contains a character
    that is not a letter, a digit, a hyphen or an underscore, or is longer
    than 100 characters; every user id matching
    [^[a-zA-Z0-9\-_]{1,100}$] proceeds to the network. *)
Theorem getTransactionsByUserId_validation (nts : number -> string)
    (this : FapshiClient) (userId : string) :
  (NoRequest (getTransactionsByUserId nts this userId) <->
   userId = EmptyString \/
   (exists c, In c (list_ascii_of_string userId) /\ userIdChar c = false) \/
   (100 < String.length userId)%nat) /\
  (userIdPattern userId = true <->
   (1 <= String.length userId <= 100)%nat /\
   forall c, In c (list_ascii_of_string userId) -> userIdChar c = true) /\
  (userIdPattern userId = true ->
   Proceeds (getTransactionsByUserId nts this userId)
            (prepare nts this "GET" ("/transaction/" ++ userId) None None)).
Proof.
  assert (Hgo : userIdPattern userId = true ->
                Proceeds (getTransactionsByUserId nts this userId)
                  (prepare nts this "GET" ("/transaction/" ++ userId) None None)).
  { intros Hp. unfold getTransactionsByUserId. rewrite Hp.
    destruct userId as [ | c rest]; [discriminate | ].
    cbn [truthy negb String.eqb]. apply request_Proceeds. }
  split; [ | split; [apply userIdPattern_true | exact Hgo]].
  rewrite <- userIdPattern_false. split.
  - intros Hno. destruct (userIdPattern userId) eqn:Hp; [ | reflexivity].
    exfalso. exact (Proceeds_not_NoRequest _ _ (Hgo eq_refl) Hno).
  - intros Hp. unfold getTransactionsByUserId. rewrite Hp.
    destruct (negb (truthy (VStr userId))); apply localError_NoRequest.
Qed.

Lemma getTransactionsByUserId_validation_witness :
  NoRequest (getTransactionsByUserId showNumber sandboxClient "user 123") /\
  Proceeds (getTransactionsByUserId showNumber sandboxClient "user-123_A")
           (prepare showNumber sandboxClient "GET" "/transaction/user-123_A"
                    None None).
Proof.
  split.
  - apply (proj1 (getTransactionsByUserId_validation showNumber sandboxClient
                    "user 123")).
    right. left. exists " "%char. split; [simpl; tauto | reflexivity].
  - apply (proj2 (proj2 (getTransactionsByUserId_validation showNumber sandboxClient
                           "user-123_A"))).
    reflexivity.
Defined.

Lemma limit_in_range (l : number) :
  lessEq (ofZ 1) l = true -> lessEq l (ofZ 100) = true ->
  lessThan l (ofZ 1) || greaterThan l (ofZ 100) = false.
Proof.
  unfold greaterThan. destruct l as [ | neg | q]; simpl.
  - discriminate.
  - now destruct neg.
  - unfold Qltb. now intros -> ->.
Qed.

(** The range check on the limits it decides: [searchTransactions] fails
    locally, without any HTTP request, when a limit is provided that is
    less than 1 or greater than 100; when the limit is omitted, or
    provided within [1,100], the request proceeds to the network. *)
Theorem searchTransactions_limit (nts : number -> string) (this : FapshiClient)
    (params : option SearchTransactionsParams.t) :
  let sent := prepare nts this "GET" "/search" None (option_map entries params) in
  (forall l, limitOf params = Some l ->
             lessThan l (ofZ 1) = true \/ greaterThan l (ofZ 100) = true ->
             NoRequest (searchTransactions nts this params)) /\
  (limitOf params = None ->
   Proceeds (searchTransactions nts this params) sent) /\
  (forall l, limitOf params = Some l ->
             lessEq (ofZ 1) l = true -> lessEq l (ofZ 100) = true ->
             Proceeds (searchTransactions nts this params) sent).
Proof.
  intros sent. unfold searchTransactions. split; [ | split].
  - intros l -> Hout. apply orb_true_iff in Hout. rewrite Hout.
    apply localError_NoRequest.
  - intros ->. apply request_Proceeds.
  - intros l -> Hlo Hhi. rewrite (limit_in_range l Hlo Hhi).
    apply request_Proceeds.
Qed.

(** [NaN] is neither less than 1 nor greater than 100: such a limit is
    sent to the server. *)
Example searchTransactions_NaN_limit :
  networkCall
    (searchTransactions showNumber sandboxClient
       (Some (SearchTransactionsParams.mk None None None None None (Some NaN) None)))
  = Some (mkHttpRequest
            (mkURL "https://sandbox.fapshi.com/search" [("limit", "NaN")])
            "GET"
            [("Content-Type", "application/json");
             ("apiuser", "user"); ("apikey", "FAK_TEST_key")]
            None).
Proof. reflexivity. Qed.

Lemma searchTransactions_limit_witness :
  NoRequest
    (searchTransactions showNumber sandboxClient
       (Some (SearchTransactionsParams.mk None None None None None
                                          (Some (ofZ 101)) None))) /\
  Proceeds (searchTransactions showNumber sandboxClient None)
           (prepare showNumber sandboxClient "GET" "/search" None None) /\
  Proceeds
    (searchTransactions showNumber sandboxClient
       (Some (SearchTransactionsParams.mk (Some "successful") None None None None
                                          (Some (ofZ 20)) (Some "desc"))))
    (mkHttpRequest
       (mkURL "https://sandbox.fapshi.com/search"
              [("status", "successful"); ("limit", "20"); ("sort", "desc")])
       "GET"
       [("Content-Type", "application/json");
        ("apiuser", "user"); ("apikey", "FAK_TEST_key")]
       None).
Proof.
  split; [ | split].
  - apply (proj1 (searchTransactions_limit showNumber sandboxClient
                    (Some (SearchTransactionsParams.mk None None None None None
                                                       (Some (ofZ 101)) None)))
                 (ofZ 101)).
    + reflexivity.
    + now right.
  - apply (proj1 (proj2 (searchTransactions_limit showNumber sandboxClient None))).
    reflexivity.
  - apply (proj2 (proj2 (searchTransactions_limit showNumber sandboxClient
                    (Some (SearchTransactionsParams.mk (Some "successful") None None
                             None None (Some (ofZ 20)) (Some "desc")))))
                 (ofZ 20)).
    + reflexivity.
    + reflexivity.
    + reflexivity.
Defined.

Lemma fold_left_appendEntry (nts : number -> string)
    (queryParams : list (string * QueryValue)) :
  forall u,
    fold_left (appendEntry nts) queryParams u =
    mkURL (href u) (searchParams u ++ setEntries nts queryParams).
Proof.
  induction queryParams as [ | [k v] rest IH]; intros u.
  - unfold setEntries. cbn [fold_left filter map]. rewrite app_nil_r.
    now destruct u.
  - cbn [fold_left]. rewrite IH. unfold setEntries.
    cbn [filter snd fst appendEntry]. destruct (isSet v).
    + cbn [map fst snd searchParams_append href searchParams].
      now rewrite <- app_assoc.
    + reflexivity.
Qed.

Lemma isSet_true (v : QueryValue) :
  isSet v = true <-> v <> QUndefined /\ v <> QNull.
Proof.
  destruct v; simpl; split; try (intros [? ?]); try discriminate;
    try (split; discriminate); auto; congruence.
Qed.

(** C9.  For every map of query parameters given to [request], the query
    string of the URL that is fetched holds exactly the entries whose
    value is neither [undefined] nor [null], each with its value
    stringified and in the order of the map; entries whose value is
    [undefined] or [null] are left out. *)
Theorem request_query_parameters (nts : number -> string) (this : FapshiClient)
    (method path : string) (body : option Body)
    (queryParams : list (string * QueryValue)) :
  let sent := prepare nts this method path body (Some queryParams) in
  Proceeds (request nts this method path body (Some queryParams)) sent /\
  searchParams (url sent) =
  map (fun kv => (fst kv, stringOf nts (snd kv)))
      (filter (fun kv => isSet (snd kv)) queryParams) /\
  (forall k s,
     In (k, s) (searchParams (url sent)) <->
     exists v, In (k, v) queryParams /\ v <> QUndefined /\ v <> QNull /\
               s = stringOf nts v).
Proof.
  intros sent.
  assert (Hq : searchParams (url sent) = setEntries nts queryParams).
  { unfold sent, prepare, buildUrl. cbn [url].
    now rewrite fold_left_appendEntry. }
  split; [apply request_Proceeds | split; [exact Hq | ]].
  intros k s. rewrite Hq. unfold setEntries. rewrite in_map_iff. split.
  - intros ([k' v] & [= <- <-] & Hin). apply filter_In in Hin as [Hin Hset].
    apply isSet_true in Hset as [H1 H2]. now exists v.
  - intros (v & Hin & H1 & H2 & ->). exists (k, v). split; [reflexivity | ].
    apply filter_In. split; [exact Hin | ]. now apply isSet_true.
Qed.

Lemma request_query_parameters_witness :
  let queryParams :=
    [("status", QString "failed"); ("medium", QUndefined); ("start", QNull);
     ("limit", QNumber (ofZ 5))] in
  searchParams (url (prepare showNumber sandboxClient "GET" "/search" None
                             (Some queryParams)))
  = [("status", "failed"); ("limit", "5")] /\
  In ("limit", "5")
     (searchParams (url (prepare showNumber sandboxClient "GET" "/search" None
                                 (Some queryParams)))).
Proof.
  intros queryParams.
  destruct (request_query_parameters showNumber sandboxClient "GET" "/search" None
              queryParams) as (_ & Hq & Hin).
  split.
  - rewrite Hq. reflexivity.
  - apply Hin. exists (QNumber (ofZ 5)). repeat split; try discriminate.
    simpl. tauto.
Defined.

(* ================================================================== *)
(** * All operations: requests sent and errors raised                   *)
(* ================================================================== *)

Lemma request_SendsOnce nts this method path body qp :
  SendsOnce (request nts this method path body qp)
            (prepare nts this method path body qp).
Proof.
  split; [reflexivity | ].
  intros net. destruct (net (prepare nts this method path body qp)) as [f | r] eqn:H.
  - rewrite (request_rejected _ _ _ _ _ _ _ f H).
    eexists. split; [reflexivity | discriminate].
  - destruct (json r) as [f | data] eqn:Hj.
    + rewrite (request_unparsed _ _ _ _ _ _ _ r f H Hj).
      eexists. split; [reflexivity | discriminate].
    + destruct (ok r) eqn:Hok.
      * rewrite (request_ok _ _ _ _ _ _ _ r data H Hj Hok).
        eexists. split; [reflexivity | discriminate].
      * destruct (getProperty data "message") as [msg | v] eqn:Hv.
        -- rewrite (request_not_ok_unreadable _ _ _ _ _ _ _ r data msg H Hj Hok Hv).
           eexists. split; [reflexivity | discriminate].
        -- rewrite (request_not_ok _ _ _ _ _ _ _ r data v H Hj Hok Hv).
           eexists. split; [reflexivity | discriminate].
Qed.

Lemma getPaymentStatus_SendsOnce nts this transId :
  transId <> EmptyString ->
  SendsOnce (getPaymentStatus nts this transId) (statusRequest nts this transId).
Proof.
  intros Hid. unfold getPaymentStatus. rewrite (truthy_VStr transId Hid).
  cbn [negb]. split; [reflexivity | ].
  intros net. rewrite run_bind.
  destruct (request_SendsOnce nts this "GET" ("/payment-status/" ++ transId)
              None None) as [_ Hreq].
  destruct (Hreq net) as (out & Hrun & Hclean). rewrite Hrun.
  destruct out as [e | a].
  - exists (inl e). split; [reflexivity | exact Hclean].
  - destruct (truthy a) eqn:Ha; cbn [negb].
    + unfold read. destruct (getProperty a "transId") as [msg | id] eqn:Hg.
      * now apply truthy_getProperty in Hg.
      * cbn [bind]. destruct (truthy id); cbn [negb run app fst snd];
          eexists; (split; [reflexivity | discriminate]).
    + cbn [run app fst snd]. eexists. split; [reflexivity | discriminate].
Qed.

Lemma perform_cases nts this (op : Operation) :
  NoRequest (perform nts this op) \/
  SendsOnce (perform nts this op) (endpoint nts this op).
Proof.
  destruct op as [r | r | transId | r | userId | params | | r]; cbn [perform].
  - unfold initiatePay. destruct (amountTooLow _).
    + left. apply localError_NoRequest.
    + right. apply request_SendsOnce.
  - unfold directPay. destruct (amountTooLow _).
    + left. apply localError_NoRequest.
    + destruct (negb _).
      * left. apply localError_NoRequest.
      * right. apply request_SendsOnce.
  - destruct (string_dec transId EmptyString) as [-> | Hid].
    + left. apply localError_NoRequest.
    + right. now apply getPaymentStatus_SendsOnce.
  - unfold expirePay. destruct (negb _).
    + left. apply localError_NoRequest.
    + right. apply request_SendsOnce.
  - unfold getTransactionsByUserId. destruct (negb (truthy _)).
    + left. apply localError_NoRequest.
    + destruct (negb _).
      * left. apply localError_NoRequest.
      * right. apply request_SendsOnce.
  - unfold searchTransactions. destruct (limitOf params) as [l | ].
    + destruct (_ || _).
      * left. apply localError_NoRequest.
      * right. apply request_SendsOnce.
    + right. apply request_SendsOnce.
  - right. apply request_SendsOnce.
  - unfold payout. destruct (amountTooLow _).
    + left. apply localError_NoRequest.
    + destruct (strictEquals _ _).
      * destruct (negb _).
        -- left. apply localError_NoRequest.
        -- right. apply request_SendsOnce.
      * destruct (negb _).
        -- left. apply localError_NoRequest.
        -- right. apply request_SendsOnce.
Qed.

(** X1.  Whatever the network does (rejection with any thrown value,
    unparsable body, any status), no operation of the client lets a
    foreign exception escape: it returns a value or raises a
    [FapshiError]. *)
Theorem perform_raises_only_FapshiError (nts : number -> string)
    (this : FapshiClient) (op : Operation) (net : HttpRequest -> FetchResult) :
  (exists v, snd (run net (perform nts this op)) = inr v) \/
  (exists e, snd (run net (perform nts this op)) = inl (Fapshi e)).
Proof.
  destruct (perform_cases nts this op) as [(e & _ & H) | [_ H]].
  - right. exists e. now rewrite H.
  - destruct (H net) as (out & Hrun & Hclean). rewrite Hrun. cbn [snd].
    destruct out as [[e | f] | v].
    + right. now exists e.
    + now contradiction (Hclean f).
    + left. now exists v.
Qed.

(** X2.  Every operation sends at most one HTTP request per call,
    whatever the network answers and whatever the outcome: nothing is
    retried. *)
Theorem perform_sends_at_most_once (nts : number -> string)
    (this : FapshiClient) (op : Operation) (net : HttpRequest -> FetchResult) :
  (List.length (fst (run net (perform nts this op))) <= 1)%nat.
Proof.
  destruct (perform_cases nts this op) as [Hno | [_ H]].
  - rewrite (NoRequest_run _ net Hno). simpl. lia.
  - destruct (H net) as (out & Hrun & _). rewrite Hrun. simpl. lia.
Qed.

Lemma perform_sent nts this op net req :
  In req (fst (run net (perform nts this op))) -> req = endpoint nts this op.
Proof.
  destruct (perform_cases nts this op) as [Hno | [_ H]].
  - rewrite (NoRequest_run _ net Hno). intros [].
  - destruct (H net) as (out & Hrun & _). rewrite Hrun.
    now intros [<- | []].
Qed.

Lemma href_buildUrl nts this path qp :
  href (buildUrl nts this path qp) = (baseUrl this ++ path)%string.
Proof.
  unfold buildUrl. destruct qp as [es | ]; [ | reflexivity].
  now rewrite fold_left_appendEntry.
Qed.

(** X3.  Every request sent by an operation uses the operation's method
    (POST for [initiatePay], [directPay], [expirePay] and [payout], GET
    for the others).  For the POST operations the value handed to
    [JSON.stringify] as body is the caller's request record as it was
    received (the client adds, drops or changes no field before
    serialising); the GET operations set no body. *)
Theorem perform_request_shape (nts : number -> string) (this : FapshiClient)
    (op : Operation) (net : HttpRequest -> FetchResult) (req : HttpRequest) :
  In req (fst (run net (perform nts this op))) ->
  method req = endpointMethod op /\
  body req = endpointBody op /\
  (method req = "POST" <-> exists b, body req = Some b) /\
  (method req = "GET" <-> body req = None).
Proof.
  intros Hin. apply perform_sent in Hin. subst req. unfold endpoint, prepare.
  cbn [method body].
  destruct op; cbn [endpointMethod endpointBody String.eqb Ascii.eqb Bool.eqb orb];
    (split; [reflexivity | split; [reflexivity | split; split]]);
    try reflexivity; try discriminate;
    try (intros _; eexists; reflexivity);
    try (intros (b & Hb); discriminate).
Qed.

Lemma perform_request_shape_witness :
  let r := PayoutRequest.mk (Some (ofZ 5000)) (Some "670000000") None None None
                            None None None in
  let req := endpoint showNumber sandboxClient (Payout r) in
  method req = "POST" /\ body req = Some (PayoutBody r).
Proof.
  intros r req.
  destruct (perform_request_shape showNumber sandboxClient (Payout r)
              (always (Rejects OtherValue)) req) as (H1 & H2 & _).
  - left. reflexivity.
  - split; [exact H1 | exact H2].
Defined.

Lemma new_credentials (config : FapshiConfig.t) :
  apiUser (new config) = FapshiConfig.apiUser config /\
  apiKey (new config) = FapshiConfig.apiKey config.
Proof.
  unfold new. destruct (FapshiConfig.baseUrl config) as [b | ].
  - destruct (truthy (VStr b)); split; reflexivity.
  - split; reflexivity.
Qed.

(** X4.  Every request sent by a client made by [createFapshiClient]
    carries exactly three headers: the JSON content type and the
    [apiuser] and [apikey] of the configuration, unchanged, whichever
    base URL or environment was resolved. *)
Theorem credentials_on_every_request (nts : number -> string)
    (config : FapshiConfig.t) (op : Operation)
    (net : HttpRequest -> FetchResult) (req : HttpRequest) :
  In req (fst (run net (perform nts (createFapshiClient config) op))) ->
  headers req =
  [("Content-Type", "application/json");
   ("apiuser", FapshiConfig.apiUser config);
   ("apikey", FapshiConfig.apiKey config)].
Proof.
  intros Hin. apply perform_sent in Hin. subst req.
  unfold endpoint, prepare, createFapshiClient. cbn [headers].
  destruct (new_credentials config) as [-> ->]. reflexivity.
Qed.

Lemma credentials_on_every_request_witness :
  headers (endpoint showNumber
             (createFapshiClient
                (FapshiConfig.mk "merchant" "FAK_key" (Some sandbox)
                                 (Some "https://proxy.example/")))
             GetBalance) =
  [("Content-Type", "application/json");
   ("apiuser", "merchant"); ("apikey", "FAK_key")].
Proof.
  apply (credentials_on_every_request showNumber
           (FapshiConfig.mk "merchant" "FAK_key" (Some sandbox)
                            (Some "https://proxy.example/"))
           GetBalance (always (Rejects OtherValue))).
  left. reflexivity.
Defined.

Lemma request_error_status nts this method path body qp net e s :
  snd (run net (request nts this method path body qp)) = inl (Fapshi e) ->
  statusCode e = Some s ->
  exists r data,
    net (prepare nts this method path body qp) = Resolves r /\
    ok r = false /\ json r = inr data /\ status r = s.
Proof.
  intros Hrun Hs.
  assert (Hwrap : forall f, inl (Fapshi (wrap (Platform f))) = inl (B := value) (Fapshi e) ->
                            False).
  { intros f Hf. assert (He : wrap (Platform f) = e) by congruence.
    rewrite <- He, wrap_platform_statusCode in Hs. discriminate. }
  destruct (net (prepare nts this method path body qp)) as [f | r] eqn:H.
  - rewrite (request_rejected _ _ _ _ _ _ _ f H) in Hrun.
    now apply Hwrap in Hrun.
  - destruct (json r) as [f | data] eqn:Hj.
    + rewrite (request_unparsed _ _ _ _ _ _ _ r f H Hj) in Hrun.
      now apply Hwrap in Hrun.
    + destruct (ok r) eqn:Hok.
      * rewrite (request_ok _ _ _ _ _ _ _ r data H Hj Hok) in Hrun. discriminate.
      * destruct (getProperty data "message") as [msg | v] eqn:Hv.
        -- rewrite (request_not_ok_unreadable _ _ _ _ _ _ _ r data msg H Hj Hok Hv)
             in Hrun.
           now apply Hwrap in Hrun.
        -- rewrite (request_not_ok _ _ _ _ _ _ _ r data v H Hj Hok Hv) in Hrun.
           cbn [snd] in Hrun.
           assert (He : statusCode e = Some (status r)).
           { assert (He : mkFapshiError
                            (orElse v (VStr (fallbackMessage (status r))))
                            (Some (status r)) = e) by congruence.
             now rewrite <- He. }
           rewrite He in Hs. injection Hs as <-. now exists r, data.
Qed.

Ltac local_or_request :=
  match goal with
  | |- snd (run _ (localError _)) = _ -> _ => intros [= <-] [=]
  | |- snd (run _ (request _ _ _ _ _ _)) = _ -> _ =>
      let Hrun := fresh "Hrun" in
      let Hs := fresh "Hs" in
      intros Hrun Hs; left;
      destruct (request_error_status _ _ _ _ _ _ _ _ _ Hrun Hs)
        as (r' & data' & ? & ? & ? & ?);
      exists r'; repeat split; assumption
  end.

(** X5.  An error raised by an operation carries a status code only in
    two cases: the server answered the operation's request with that
    non-2xx status, or the operation is [getPaymentStatus], its HTTP call
    succeeded and the code is the synthesized 404.  Local validation
    errors and transport errors never carry one. *)
Theorem status_code_provenance (nts : number -> string) (this : FapshiClient)
    (op : Operation) (net : HttpRequest -> FetchResult) (e : FapshiError) (s : Z) :
  snd (run net (perform nts this op)) = inl (Fapshi e) ->
  statusCode e = Some s ->
  (exists r, net (endpoint nts this op) = Resolves r /\
             ok r = false /\ status r = s) \/
  (exists transId data,
     op = GetPaymentStatus transId /\
     Succeeds net (endpoint nts this op) data /\ s = 404%Z).
Proof.
  destruct op as [r | r | transId | r | userId | params | | r]; cbn [perform].
  - unfold initiatePay. destruct (amountTooLow _); local_or_request.
  - unfold directPay. destruct (amountTooLow _); [local_or_request | ].
    destruct (negb _); local_or_request.
  - unfold getPaymentStatus. destruct (negb (truthy (VStr transId)));
      [local_or_request | ].
    rewrite run_bind.
    destruct (run net (request nts this "GET" ("/payment-status/" ++ transId)
                               None None)) as [sent [x | a]] eqn:Hreq.
    + cbn [snd]. intros [= ->] Hs. left.
      assert (Hrun : snd (run net (request nts this "GET"
                                     ("/payment-status/" ++ transId) None None))
                     = inl (Fapshi e)) by now rewrite Hreq.
      destruct (request_error_status _ _ _ _ _ _ _ _ _ Hrun Hs)
        as (r & data & ? & ? & ? & ?).
      exists r. repeat split; assumption.
    + assert (Hret : snd (run net (request nts this "GET"
                                     ("/payment-status/" ++ transId) None None))
                     = inr a) by now rewrite Hreq.
      apply request_returns in Hret as (r & Hnet & Hj & Hok).
      assert (Hsucc : Succeeds net (endpoint nts this (GetPaymentStatus transId)) a)
        by now exists r.
      cbn [snd]. destruct (truthy a) eqn:Ha; cbn [negb].
      * unfold read. destruct (getProperty a "transId") as [msg | id] eqn:Hg.
        -- now apply truthy_getProperty in Hg.
        -- cbn [bind]. destruct (truthy id); cbn [negb run snd].
           ++ discriminate.
           ++ intros [= <-] [= <-]. right. now exists transId, a.
      * cbn [run snd]. intros [= <-] [= <-]. right. now exists transId, a.
  - unfold expirePay. destruct (negb _); local_or_request.
  - unfold getTransactionsByUserId. destruct (negb (truthy _)); [local_or_request | ].
    destruct (negb _); local_or_request.
  - unfold searchTransactions. destruct (limitOf params) as [l | ];
      [ | local_or_request].
    destruct (_ || _); local_or_request.
  - unfold getBalance. local_or_request.
  - unfold payout. destruct (amountTooLow _); [local_or_request | ].
    destruct (strictEquals _ _); destruct (negb _); local_or_request.
Qed.

Lemma status_code_provenance_witness :
  (exists r,
     always (Resolves (mkResponse 401
                         (inr (VObj [("message", VStr "Unauthorized")]))))
            (endpoint showNumber sandboxClient GetBalance)
     = Resolves r /\ ok r = false /\ status r = 401%Z) \/
  (exists transId data,
     GetBalance = GetPaymentStatus transId /\
     Succeeds (always (Resolves (mkResponse 401
                                  (inr (VObj [("message", VStr "Unauthorized")])))))
              (endpoint showNumber sandboxClient GetBalance) data /\
     401%Z = 404%Z).
Proof.
  apply (status_code_provenance showNumber sandboxClient GetBalance
           (always (Resolves (mkResponse 401
                                (inr (VObj [("message", VStr "Unauthorized")])))))
           (mkFapshiError (VStr "Unauthorized") (Some 401%Z)) 401%Z).
  - reflexivity.
  - reflexivity.
Defined.

(** X6.  When the HTTP call of [getPaymentStatus] fails, the error of
    [request] is raised as it is: a server status such as 401 or 500 is
    not turned into the 404 of a missing transaction. *)
Theorem getPaymentStatus_propagates_errors (nts : number -> string)
    (this : FapshiClient) (transId : string) (net : HttpRequest -> FetchResult)
    (x : Exn) :
  transId <> EmptyString ->
  snd (run net (request nts this "GET" ("/payment-status/" ++ transId) None None))
  = inl x ->
  run net (getPaymentStatus nts this transId) =
  ([statusRequest nts this transId], inl x).
Proof.
  intros Hid Hx. unfold getPaymentStatus. rewrite (truthy_VStr transId Hid).
  cbn [negb]. rewrite run_bind.
  destruct (request_SendsOnce nts this "GET" ("/payment-status/" ++ transId)
              None None) as [_ Hreq].
  destruct (Hreq net) as (out & Hrun & _). rewrite Hrun in *. cbn [snd] in Hx.
  now subst out.
Qed.

Lemma getPaymentStatus_propagates_errors_witness :
  run (always (Resolves (mkResponse 401
                           (inr (VObj [("message", VStr "Unauthorized")])))))
      (getPaymentStatus showNumber sandboxClient "abc") =
  ([statusRequest showNumber sandboxClient "abc"],
   inl (Fapshi (mkFapshiError (VStr "Unauthorized") (Some 401%Z)))).
Proof.
  apply getPaymentStatus_propagates_errors.
  - discriminate.
  - reflexivity.
Defined.

(** X7.  [request] returns a value exactly when the server answers with a
    2xx status and a body that parses as JSON, and the value is that
    parsed body, unchanged. *)
Theorem request_returns_parsed_body (nts : number -> string) (this : FapshiClient)
    (method path : string) (body : option Body)
    (queryParams : option (list (string * QueryValue)))
    (net : HttpRequest -> FetchResult) (data : value) :
  snd (run net (request nts this method path body queryParams)) = inr data <->
  Succeeds net (prepare nts this method path body queryParams) data.
Proof.
  split.
  - intros Hrun. apply request_returns in Hrun as (r & H & Hj & Hok).
    now exists r.
  - intros (r & H & Hok & Hj).
    now rewrite (request_ok _ _ _ _ _ _ _ r data H Hj Hok).
Qed.

Lemma request_returns_parsed_body_witness :
  snd (run (always (Resolves (mkResponse 200
               (inr (VObj [("service", VStr "shop"); ("balance", VNum (ofZ 1500));
                           ("currency", VStr "XAF")])))))
           (request showNumber sandboxClient "GET" "/balance" None None))
  = inr (VObj [("service", VStr "shop"); ("balance", VNum (ofZ 1500));
               ("currency", VStr "XAF")]).
Proof.
  apply (proj2 (request_returns_parsed_body showNumber sandboxClient "GET"
                  "/balance" None None _ _)).
  apply always_Succeeds. lia.
Defined.

(* ================================================================== *)
(** * The catch clause: what failures look like                         *)
(* ================================================================== *)

Lemma wrap_connection (msg : string) :
  MentionsConnection msg ->
  wrap (Platform (ErrorObject msg)) =
  mkFapshiError (VStr (networkErrorPrefix ++ msg)) None.
Proof.
  intros H. cbn [wrap]. rewrite errorMessage_same.
  replace (_ || _) with true; [reflexivity | ].
  symmetry. destruct H as [H | [H | [H | [H | H]]]]; rewrite H;
    rewrite ?orb_true_r; reflexivity.
Qed.

Lemma wrap_other (msg : string) :
  ~ MentionsConnection msg ->
  wrap (Platform (ErrorObject msg)) = mkFapshiError (VStr msg) None.
Proof.
  intros H. cbn [wrap]. rewrite errorMessage_same.
  unfold MentionsConnection in H.
  destruct (includes msg "failed"); [exfalso; apply H; now left | ].
  destruct (includes msg "fetch"); [exfalso; apply H; tauto | ].
  destruct (includes msg "ENOTFOUND"); [exfalso; apply H; tauto | ].
  destruct (includes msg "ECONNREFUSED"); [exfalso; apply H; tauto | ].
  destruct (includes msg "ETIMEDOUT"); [exfalso; apply H; tauto | ].
  reflexivity.
Qed.

(** X8.  When [fetch] itself rejects with an [Error], the [FapshiError]
    raised by [request] has no status code, and its message is
    [Network error: Unable to connect to Fapshi API. ] followed by the
    error's message exactly when that message contains [failed], [fetch],
    [ENOTFOUND], [ECONNREFUSED] or [ETIMEDOUT]; otherwise it is the bare
    message of the error.  Either way the original message is the end of
    the new one, so no detail of the failure is lost. *)
Theorem request_rejection_message (nts : number -> string) (this : FapshiClient)
    (method path : string) (body : option Body)
    (queryParams : option (list (string * QueryValue)))
    (net : HttpRequest -> FetchResult) (msg : string) :
  net (prepare nts this method path body queryParams) = Rejects (ErrorObject msg) ->
  exists e,
    run net (request nts this method path body queryParams)
    = ([prepare nts this method path body queryParams], inl (Fapshi e)) /\
    statusCode e = None /\
    (message e
     = VStr ("Network error: Unable to connect to Fapshi API. " ++ msg)
     <-> MentionsConnection msg) /\
    (message e = VStr msg <-> ~ MentionsConnection msg) /\
    exists before, message e = VStr (before ++ msg).
Proof.
  intros H. exists (wrap (Platform (ErrorObject msg))).
  split; [apply (request_rejected _ _ _ _ _ _ _ _ H) | ].
  split; [apply wrap_platform_statusCode | ].
  pose proof (network_message_neq msg) as Hneq.
  assert (Hdec : MentionsConnection msg \/ ~ MentionsConnection msg).
  { unfold MentionsConnection.
    destruct (includes msg "failed"); [now left; left | ].
    destruct (includes msg "fetch"); [left; tauto | ].
    destruct (includes msg "ENOTFOUND"); [left; tauto | ].
    destruct (includes msg "ECONNREFUSED"); [left; tauto | ].
    destruct (includes msg "ETIMEDOUT"); [left; tauto | ].
    right. intros [H' | [H' | [H' | [H' | H']]]]; discriminate. }
  destruct Hdec as [Hm | Hm].
  - rewrite (wrap_connection msg Hm). cbn [message]. split; [ | split].
    + split; [now intros _ | reflexivity].
    + split; [intros Heq; now contradiction Hneq | intros Hn; now contradiction Hn].
    + now exists "Network error: Unable to connect to Fapshi API. ".
  - rewrite (wrap_other msg Hm). cbn [message]. split; [ | split].
    + split; [intros Heq; symmetry in Heq; now contradiction Hneq
             | intros Hn; now contradiction Hm].
    + split; [now intros _ | reflexivity].
    + now exists EmptyString.
Qed.

Lemma request_rejection_message_witness :
  exists e,
    run (always (Rejects (ErrorObject "socket hang up")))
        (request showNumber sandboxClient "GET" "/balance" None None)
    = ([prepare showNumber sandboxClient "GET" "/balance" None None],
       inl (Fapshi e)) /\
    statusCode e = None /\ message e = VStr "socket hang up".
Proof.
  destruct (request_rejection_message showNumber sandboxClient "GET" "/balance"
              None None (always (Rejects (ErrorObject "socket hang up")))
              "socket hang up" eq_refl)
    as (e & Hrun & Hs & _ & Hm & _).
  exists e. split; [exact Hrun | split; [exact Hs | ]].
  apply Hm. intros [H | [H | [H | [H | H]]]]; discriminate.
Defined.

(** X9.  A response whose body cannot be parsed as JSON is an error
    whatever its status: even with a 2xx status (for instance an empty
    body) [request] raises a [FapshiError], and even with a non-2xx status
    that error carries no status code.  A non-2xx response whose body is
    JSON [null] loses its status code in the same way. *)
Theorem request_unparsable_body (nts : number -> string) (this : FapshiClient)
    (method path : string) (body : option Body)
    (queryParams : option (list (string * QueryValue)))
    (net : HttpRequest -> FetchResult) (r : Response) :
  net (prepare nts this method path body queryParams) = Resolves r ->
  (forall f, json r = inl f \/ (json r = inr VNull /\ ok r = false) ->
   exists e,
     run net (request nts this method path body queryParams)
     = ([prepare nts this method path body queryParams], inl (Fapshi e)) /\
     statusCode e = None) /\
  (forall msg, json r = inl (ErrorObject msg) -> ~ MentionsConnection msg ->
     run net (request nts this method path body queryParams)
     = ([prepare nts this method path body queryParams],
        inl (Fapshi (mkFapshiError (VStr msg) None)))).
Proof.
  intros H. split.
  - intros f [Hj | [Hj Hok]].
    + exists (wrap (Platform f)). split.
      * apply (request_unparsed _ _ _ _ _ _ _ r f H Hj).
      * apply wrap_platform_statusCode.
    + exists (wrap (Platform (ErrorObject (typeErrorMessage VNull "message")))).
      split.
      * now apply (request_not_ok_unreadable _ _ _ _ _ _ _ r VNull _ H Hj Hok).
      * apply wrap_platform_statusCode.
  - intros msg Hj Hm.
    rewrite (request_unparsed _ _ _ _ _ _ _ r _ H Hj). now rewrite wrap_other.
Qed.

Lemma request_unparsable_body_witness :
  run (always (Resolves (mkResponse 204
                           (inl (ErrorObject "Unexpected end of JSON input")))))
      (request showNumber sandboxClient "POST" "/expire-pay"
               (Some (ExpirePayBody (ExpirePayRequest.mk (Some "abc")))) None)
  = ([prepare showNumber sandboxClient "POST" "/expire-pay"
              (Some (ExpirePayBody (ExpirePayRequest.mk (Some "abc")))) None],
     inl (Fapshi (mkFapshiError (VStr "Unexpected end of JSON input") None))).
Proof.
  apply (proj2 (request_unparsable_body showNumber sandboxClient "POST" "/expire-pay"
                  (Some (ExpirePayBody (ExpirePayRequest.mk (Some "abc")))) None
                  (always (Resolves (mkResponse 204
                     (inl (ErrorObject "Unexpected end of JSON input")))))
                  (mkResponse 204 (inl (ErrorObject "Unexpected end of JSON input")))
                  eq_refl)).
  - reflexivity.
  - intros [H | [H | [H | [H | H]]]]; discriminate.
Defined.

(* ================================================================== *)
(** * Local validation, operation by operation                          *)
(* ================================================================== *)

Lemma SendsOnce_not_NoRequest (m : io value) (req : HttpRequest) :
  SendsOnce m req -> ~ NoRequest m.
Proof.
  intros [_ H] (e & _ & He).
  destruct (H (always (Rejects OtherValue))) as (out & Hout & _).
  rewrite He in Hout. discriminate.
Qed.

Lemma amountTooLow_true (amount : option number) :
  amountTooLow amount = true <-> ~ AtLeast100 amount.
Proof.
  rewrite <- amountTooLow_false. now destruct (amountTooLow amount).
Qed.

Lemma truthy_ofString_true (o : option string) :
  truthy (ofString o) = true <-> ~ Blank o.
Proof.
  rewrite <- truthy_ofString_false. now destruct (truthy (ofString o)).
Qed.

(** X10.  [initiatePay] sends its request exactly when the amount is a
    number that is at least 100, and fails locally in every other case:
    amount missing, below 100 (zero and negative amounts included) or
    [NaN].  No other field of the request is examined. *)
Theorem initiatePay_validation (nts : number -> string) (this : FapshiClient)
    (r : InitiatePayRequest.t) :
  (SendsOnce (initiatePay nts this r) (endpoint nts this (InitiatePay r)) <->
   AtLeast100 (InitiatePayRequest.amount r)) /\
  (NoRequest (initiatePay nts this r) <->
   ~ AtLeast100 (InitiatePayRequest.amount r)) /\
  ~ AtLeast100 (Some NaN).
Proof.
  assert (Hcases :
    (AtLeast100 (InitiatePayRequest.amount r) /\
     SendsOnce (initiatePay nts this r) (endpoint nts this (InitiatePay r))) \/
    (~ AtLeast100 (InitiatePayRequest.amount r) /\
     NoRequest (initiatePay nts this r))).
  { unfold initiatePay.
    destruct (amountTooLow (InitiatePayRequest.amount r)) eqn:E.
    - right. split; [now apply amountTooLow_true | apply localError_NoRequest].
    - left. split; [now apply amountTooLow_false | apply request_SendsOnce]. }
  split; [ | split].
  - destruct Hcases as [[Ha Hs] | [Ha Hn]]; split; auto.
    + intros Hs. now apply SendsOnce_not_NoRequest in Hs.
    + intros H. now contradiction Ha.
  - destruct Hcases as [[Ha Hs] | [Ha Hn]]; split; auto.
    + intros Hn. now apply SendsOnce_not_NoRequest in Hs.
    + intros H. now contradiction H.
  - intros (a & [= <-] & H). discriminate.
Qed.

Lemma initiatePay_validation_witness :
  SendsOnce
    (initiatePay showNumber sandboxClient
       (InitiatePayRequest.mk (Some (Finite (201 # 2))) None None None None None))
    (endpoint showNumber sandboxClient
       (InitiatePay
          (InitiatePayRequest.mk (Some (Finite (201 # 2))) None None None None None))) /\
  NoRequest
    (initiatePay showNumber sandboxClient
       (InitiatePayRequest.mk (Some NaN) None None None None None)).
Proof.
  split.
  - apply (proj1 (initiatePay_validation showNumber sandboxClient _)).
    exists (Finite (201 # 2)). split; reflexivity.
  - apply (proj1 (proj2 (initiatePay_validation showNumber sandboxClient _))).
    intros (a & [= <-] & H). discriminate.
Defined.

(** X11.  [directPay] sends its request exactly when the amount is a
    number that is at least 100 and the phone is a non-empty string; in
    every other case it fails locally and sends nothing. *)
Theorem directPay_validation (nts : number -> string) (this : FapshiClient)
    (r : DirectPayRequest.t) :
  (SendsOnce (directPay nts this r) (endpoint nts this (DirectPay r)) <->
   AtLeast100 (DirectPayRequest.amount r) /\ ~ Blank (DirectPayRequest.phone r)) /\
  (NoRequest (directPay nts this r) <->
   ~ (AtLeast100 (DirectPayRequest.amount r) /\ ~ Blank (DirectPayRequest.phone r))).
Proof.
  assert (Hcases :
    ((AtLeast100 (DirectPayRequest.amount r) /\ ~ Blank (DirectPayRequest.phone r)) /\
     SendsOnce (directPay nts this r) (endpoint nts this (DirectPay r))) \/
    (~ (AtLeast100 (DirectPayRequest.amount r) /\ ~ Blank (DirectPayRequest.phone r)) /\
     NoRequest (directPay nts this r))).
  { unfold directPay.
    destruct (amountTooLow (DirectPayRequest.amount r)) eqn:E.
    - right. split; [ | apply localError_NoRequest].
      apply amountTooLow_true in E. tauto.
    - apply amountTooLow_false in E.
      destruct (truthy (ofString (DirectPayRequest.phone r))) eqn:P; cbn [negb].
      + left. apply truthy_ofString_true in P.
        split; [tauto | apply request_SendsOnce].
      + right. apply truthy_ofString_false in P.
        split; [tauto | apply localError_NoRequest]. }
  split.
  - destruct Hcases as [[Ha Hs] | [Ha Hn]]; split; auto.
    + intros Hs. now apply SendsOnce_not_NoRequest in Hs.
    + intros H. now contradiction Ha.
  - destruct Hcases as [[Ha Hs] | [Ha Hn]]; split; auto.
    + intros Hn. now apply SendsOnce_not_NoRequest in Hs.
    + intros H. now contradiction H.
Qed.

Lemma directPay_validation_witness :
  NoRequest
    (directPay showNumber sandboxClient
       (DirectPayRequest.mk (Some (ofZ 1000)) (Some EmptyString) None None None
                            None None None)) /\
  SendsOnce
    (directPay showNumber sandboxClient
       (DirectPayRequest.mk (Some (ofZ 1000)) (Some "670000000") None None None
                            None None None))
    (endpoint showNumber sandboxClient
       (DirectPay
          (DirectPayRequest.mk (Some (ofZ 1000)) (Some "670000000") None None None
                               None None None))).
Proof.
  split.
  - apply (proj2 (directPay_validation showNumber sandboxClient _)).
    intros [_ H]. apply H. now right.
  - apply (proj1 (directPay_validation showNumber sandboxClient _)).
    split.
    + exists (ofZ 1000). split; reflexivity.
    + intros [H | H]; discriminate.
Defined.

(** X12.  [expirePay] and [getPaymentStatus] require their transaction
    id: with a missing or empty id they fail locally and send nothing;
    with any non-empty id they send their request, the id being put in the
    body, respectively in the path, without further validation. *)
Theorem transaction_id_validation (nts : number -> string) (this : FapshiClient) :
  (forall r,
     (NoRequest (expirePay nts this r) <-> Blank (ExpirePayRequest.transId r)) /\
     (SendsOnce (expirePay nts this r) (endpoint nts this (ExpirePay r)) <->
      ~ Blank (ExpirePayRequest.transId r))) /\
  (forall transId,
     (NoRequest (getPaymentStatus nts this transId) <-> transId = EmptyString) /\
     (SendsOnce (getPaymentStatus nts this transId)
                (endpoint nts this (GetPaymentStatus transId)) <->
      transId <> EmptyString)).
Proof.
  split.
  - intros r.
    assert (Hcases :
      (Blank (ExpirePayRequest.transId r) /\ NoRequest (expirePay nts this r)) \/
      (~ Blank (ExpirePayRequest.transId r) /\
       SendsOnce (expirePay nts this r) (endpoint nts this (ExpirePay r)))).
    { unfold expirePay.
      destruct (truthy (ofString (ExpirePayRequest.transId r))) eqn:P; cbn [negb].
      - right. split; [now apply truthy_ofString_true | apply request_SendsOnce].
      - left. split; [now apply truthy_ofString_false | apply localError_NoRequest]. }
    destruct Hcases as [[Hb Hn] | [Hb Hs]]; split; split; auto.
    + intros Hs. now apply SendsOnce_not_NoRequest in Hs.
    + intros H. now contradiction H.
    + intros Hn. now apply SendsOnce_not_NoRequest in Hs.
    + intros H. now contradiction Hb.
  - intros transId. destruct (string_dec transId EmptyString) as [-> | Hid].
    + assert (Hn : NoRequest (getPaymentStatus nts this EmptyString))
        by apply localError_NoRequest.
      split; split; auto.
      * intros Hs. now apply SendsOnce_not_NoRequest in Hs.
      * intros H. now contradiction H.
    + pose proof (getPaymentStatus_SendsOnce nts this transId Hid) as Hs.
      split; split; auto.
      * intros Hn. now apply SendsOnce_not_NoRequest in Hs.
      * intros H. now contradiction Hid.
Qed.

Lemma transaction_id_validation_witness :
  NoRequest (expirePay showNumber sandboxClient (ExpirePayRequest.mk None)) /\
  SendsOnce (getPaymentStatus showNumber sandboxClient "a/b?c")
            (endpoint showNumber sandboxClient (GetPaymentStatus "a/b?c")).
Proof.
  destruct (transaction_id_validation showNumber sandboxClient) as [He Hg].
  split.
  - apply (proj1 (He (ExpirePayRequest.mk None))). now left.
  - apply (proj2 (Hg "a/b?c")). discriminate.
Defined.

(** X13.  [searchTransactions] fails locally exactly when a limit is
    provided that compares less than 1 or greater than 100; in every
    other case, a [NaN] limit included, it sends its request.  No other
    filter is validated. *)
Theorem searchTransactions_validation (nts : number -> string)
    (this : FapshiClient) (params : option SearchTransactionsParams.t) :
  (NoRequest (searchTransactions nts this params) <->
   exists l, limitOf params = Some l /\
             (lessThan l (ofZ 1) = true \/ greaterThan l (ofZ 100) = true)) /\
  (SendsOnce (searchTransactions nts this params)
             (endpoint nts this (SearchTransactions params)) <->
   ~ exists l, limitOf params = Some l /\
               (lessThan l (ofZ 1) = true \/ greaterThan l (ofZ 100) = true)) /\
  (limitOf params = Some NaN ->
   SendsOnce (searchTransactions nts this params)
             (endpoint nts this (SearchTransactions params))).
Proof.
  set (Out := exists l, limitOf params = Some l /\
                        (lessThan l (ofZ 1) = true \/ greaterThan l (ofZ 100) = true)).
  assert (Hcases :
    (Out /\ NoRequest (searchTransactions nts this params)) \/
    (~ Out /\ SendsOnce (searchTransactions nts this params)
                        (endpoint nts this (SearchTransactions params)))).
  { unfold searchTransactions, Out. destruct (limitOf params) as [l | ].
    - destruct (lessThan l (ofZ 1) || greaterThan l (ofZ 100)) eqn:E.
      + left. split; [ | apply localError_NoRequest].
        exists l. split; [reflexivity | now apply orb_true_iff].
      + right. split; [ | apply request_SendsOnce].
        intros (l' & [= <-] & H). apply orb_true_iff in H. congruence.
    - right. split; [ | apply request_SendsOnce].
      intros (l & [=] & _). }
  split; [ | split].
  - destruct Hcases as [[Ho Hn] | [Ho Hs]]; split; auto.
    + intros Hn. now apply SendsOnce_not_NoRequest in Hs.
    + intros H. now contradiction Ho.
  - destruct Hcases as [[Ho Hn] | [Ho Hs]]; split; auto.
    + intros Hs. now apply SendsOnce_not_NoRequest in Hs.
    + intros H. now contradiction H.
  - intros Hnan. destruct Hcases as [[(l & Hl & H) _] | [_ Hs]]; [ | exact Hs].
    rewrite Hnan in Hl. injection Hl as <-. destruct H; discriminate.
Qed.

Lemma searchTransactions_validation_witness :
  NoRequest
    (searchTransactions showNumber sandboxClient
       (Some (SearchTransactionsParams.mk None None None None None
                                          (Some (Finite (1 # 2))) None))) /\
  SendsOnce
    (searchTransactions showNumber sandboxClient
       (Some (SearchTransactionsParams.mk (Some "not-a-status") None None None None
                                          (Some NaN) None)))
    (endpoint showNumber sandboxClient
       (SearchTransactions
          (Some (SearchTransactionsParams.mk (Some "not-a-status") None None None
                                             None (Some NaN) None)))).
Proof.
  split.
  - apply (proj1 (searchTransactions_validation showNumber sandboxClient _)).
    exists (Finite (1 # 2)). split; [reflexivity | now left].
  - apply (proj2 (proj2 (searchTransactions_validation showNumber sandboxClient _))).
    reflexivity.
Defined.

Lemma search_query (nts : number -> string) (this : FapshiClient)
    (p : SearchTransactionsParams.t) :
  searchParams (url (endpoint nts this (SearchTransactions (Some p)))) =
  filterEntry "status" (SearchTransactionsParams.status p)
  ++ filterEntry "medium" (SearchTransactionsParams.medium p)
  ++ filterEntry "start" (SearchTransactionsParams.start p)
  ++ filterEntry "end" (SearchTransactionsParams.end_ p)
  ++ filterEntry "amt" (option_map nts (SearchTransactionsParams.amt p))
  ++ filterEntry "limit" (option_map nts (SearchTransactionsParams.limit p))
  ++ filterEntry "sort" (SearchTransactionsParams.sort p).
Proof.
  unfold endpoint, prepare, buildUrl. cbn [url endpointQuery option_map].
  rewrite fold_left_appendEntry. cbn [newURL searchParams app].
  destruct p as [st me sa en am li so]. unfold setEntries, entries.
  cbn [SearchTransactionsParams.status SearchTransactionsParams.medium
       SearchTransactionsParams.start SearchTransactionsParams.end_
       SearchTransactionsParams.amt SearchTransactionsParams.limit
       SearchTransactionsParams.sort].
  destruct st, me, sa, en, am, li, so; reflexivity.
Qed.

Lemma In_filterEntry (key : string) (shown : option string) (k s : string) :
  In (k, s) (filterEntry key shown) <-> k = key /\ shown = Some s.
Proof.
  destruct shown as [x | ]; simpl.
  - split.
    + intros [[= <- <-] | []]. now split.
    + intros [-> [= ->]]. now left.
  - split; [intros [] | intros [_ [=]]].
Qed.

Lemma option_map_Some {A B : Type} (f : A -> B) (o : option A) (b : B) :
  option_map f o = Some b <-> exists a, o = Some a /\ b = f a.
Proof.
  destruct o as [a | ]; simpl; split.
  - intros [= <-]. now exists a.
  - now intros (a' & [= <-] & ->).
  - discriminate.
  - now intros (a & [=] & _).
Qed.

(** X14.  The query string of a search holds a parameter exactly when the
    corresponding filter was provided, under the filter's own name
    ([status], [medium], [start], [end], [amt], [limit], [sort]) and with
    its value ([amt] and [limit] stringified); filters left out never
    appear, and a search without parameters has an empty query. *)
Theorem searchTransactions_query (nts : number -> string) (this : FapshiClient)
    (p : SearchTransactionsParams.t) (k s : string) :
  (In (k, s) (searchParams (url (endpoint nts this (SearchTransactions (Some p)))))
   <->
   (k = "status" /\ SearchTransactionsParams.status p = Some s) \/
   (k = "medium" /\ SearchTransactionsParams.medium p = Some s) \/
   (k = "start" /\ SearchTransactionsParams.start p = Some s) \/
   (k = "end" /\ SearchTransactionsParams.end_ p = Some s) \/
   (k = "amt" /\ exists n, SearchTransactionsParams.amt p = Some n /\ s = nts n) \/
   (k = "limit" /\ exists n, SearchTransactionsParams.limit p = Some n /\ s = nts n) \/
   (k = "sort" /\ SearchTransactionsParams.sort p = Some s)) /\
  searchParams (url (endpoint nts this (SearchTransactions None))) = [].
Proof.
  split; [ | reflexivity].
  rewrite search_query, !in_app_iff, !In_filterEntry, !option_map_Some.
  tauto.
Qed.

Lemma searchTransactions_query_witness :
  In ("limit", "20")
     (searchParams (url (endpoint showNumber sandboxClient
        (SearchTransactions
           (Some (SearchTransactionsParams.mk (Some "successful") None None None None
                                              (Some (ofZ 20)) None)))))).
Proof.
  apply (proj1 (searchTransactions_query showNumber sandboxClient
                  (SearchTransactionsParams.mk (Some "successful") None None None None
                                               (Some (ofZ 20)) None)
                  "limit" "20")).
  right. right. right. right. right. left.
  split; [reflexivity | ]. exists (ofZ 20). split; reflexivity.
Defined.

(** X15.  A user id accepted by [getTransactionsByUserId] contains none of
    the characters that could change the structure of the URL it is put
    in (slash, question mark, hash, ampersand, equals, percent, dot,
    space): the request goes to [/transaction/] followed by the id. *)
Theorem getTransactionsByUserId_path_safe (nts : number -> string)
    (this : FapshiClient) (userId : string) (net : HttpRequest -> FetchResult)
    (req : HttpRequest) :
  In req (fst (run net (getTransactionsByUserId nts this userId))) ->
  href (url req) = (baseUrl this ++ "/transaction/" ++ userId)%string /\
  searchParams (url req) = [] /\
  forall c, In c (list_ascii_of_string userId) ->
            ~ In c ["/"; "?"; "#"; "&"; "="; "%"; "."; " "]%char.
Proof.
  intros Hin.
  assert (Hp : userIdPattern userId = true).
  { destruct (userIdPattern userId) eqn:Hp; [reflexivity | exfalso].
    assert (Hno : NoRequest (getTransactionsByUserId nts this userId)).
    { unfold getTransactionsByUserId. rewrite Hp.
      destruct (negb (truthy (VStr userId))); apply localError_NoRequest. }
    rewrite (NoRequest_run _ net Hno) in Hin. destruct Hin. }
  apply (perform_sent nts this (GetTransactionsByUserId userId)) in Hin.
  subst req. split; [ | split].
  - unfold endpoint, prepare. cbn [url]. now rewrite href_buildUrl.
  - reflexivity.
  - intros c Hc Hbad. apply userIdPattern_true in Hp as [_ Hall].
    specialize (Hall c Hc).
    repeat (destruct Hbad as [<- | Hbad]; [discriminate | ]). destruct Hbad.
Qed.

Lemma getTransactionsByUserId_path_safe_witness :
  href (url (endpoint showNumber sandboxClient (GetTransactionsByUserId "user-123_A")))
  = "https://sandbox.fapshi.com/transaction/user-123_A" /\
  ~ In "1"%char ["/"; "?"; "#"; "&"; "="; "%"; "."; " "]%char.
Proof.
  destruct (getTransactionsByUserId_path_safe showNumber sandboxClient "user-123_A"
              (always (Rejects OtherValue))
              (endpoint showNumber sandboxClient (GetTransactionsByUserId "user-123_A")))
    as (H1 & _ & H3).
  - left. reflexivity.
  - split; [exact H1 | ]. apply H3. simpl. tauto.
Defined.

(** X16.  [payout] sends its request exactly when the amount is a number
    that is at least 100 and the field required by the medium is a
    non-empty string: the email when medium is [fapshi] (the phone is
    then not looked at), the phone otherwise (the email is then not
    looked at).  In every other case it fails locally. *)
Theorem payout_validation (nts : number -> string) (this : FapshiClient)
    (r : PayoutRequest.t) :
  let valid :=
    AtLeast100 (PayoutRequest.amount r) /\
    ((PayoutRequest.medium r = Some "fapshi" /\ ~ Blank (PayoutRequest.email r)) \/
     (PayoutRequest.medium r <> Some "fapshi" /\ ~ Blank (PayoutRequest.phone r))) in
  (SendsOnce (payout nts this r) (endpoint nts this (Payout r)) <-> valid) /\
  (NoRequest (payout nts this r) <-> ~ valid).
Proof.
  intros valid.
  assert (Hcases :
    (valid /\ SendsOnce (payout nts this r) (endpoint nts this (Payout r))) \/
    (~ valid /\ NoRequest (payout nts this r))).
  { unfold payout, valid.
    destruct (amountTooLow (PayoutRequest.amount r)) eqn:E.
    - right. split; [ | apply localError_NoRequest].
      apply amountTooLow_true in E. tauto.
    - apply amountTooLow_false in E.
      destruct (strictEquals (PayoutRequest.medium r) "fapshi") eqn:M.
      + apply strictEquals_true in M.
        destruct (truthy (ofString (PayoutRequest.email r))) eqn:P; cbn [negb].
        * left. apply truthy_ofString_true in P.
          split; [tauto | apply request_SendsOnce].
        * right. apply truthy_ofString_false in P.
          split; [tauto | apply localError_NoRequest].
      + apply strictEquals_false in M.
        destruct (truthy (ofString (PayoutRequest.phone r))) eqn:P; cbn [negb].
        * left. apply truthy_ofString_true in P.
          split; [tauto | apply request_SendsOnce].
        * right. apply truthy_ofString_false in P.
          split; [tauto | apply localError_NoRequest]. }
  split.
  - destruct Hcases as [[Hv Hs] | [Hv Hn]]; split; auto.
    + intros Hs. now apply SendsOnce_not_NoRequest in Hs.
    + intros H. now contradiction Hv.
  - destruct Hcases as [[Hv Hs] | [Hv Hn]]; split; auto.
    + intros Hn. now apply SendsOnce_not_NoRequest in Hs.
    + intros H. now contradiction H.
Qed.

Lemma payout_validation_witness :
  NoRequest
    (payout showNumber sandboxClient
       (PayoutRequest.mk (Some NaN) (Some "670000000") None None None None None None)) /\
  SendsOnce
    (payout showNumber sandboxClient
       (PayoutRequest.mk (Some (ofZ 100)) (Some "670000000") (Some "mobile money")
                         None None None None None))
    (endpoint showNumber sandboxClient
       (Payout
          (PayoutRequest.mk (Some (ofZ 100)) (Some "670000000") (Some "mobile money")
                            None None None None None))).
Proof.
  split.
  - apply (proj2 (payout_validation showNumber sandboxClient _)).
    intros [(a & [= <-] & H) _]. discriminate.
  - apply (proj1 (payout_validation showNumber sandboxClient _)).
    split.
    + exists (ofZ 100). split; reflexivity.
    + right. split; [discriminate | intros [H | H]; discriminate].
Defined.

(* ================================================================== *)
(** * Key formats and base URL overrides                                *)
(* ================================================================== *)

Lemma prefix_append (p s : string) : prefix p (p ++ s) = true.
Proof.
  induction p as [ | c p IH]; simpl.
  - now destruct s.
  - destruct (ascii_dec c c) as [_ | H]; [exact IH | now contradiction H].
Qed.

(** X17.  The environment detected from a key depends only on its prefix,
    compared case-sensitively: every key [FAK_TEST_...] is a sandbox key;
    every key [FAK_...] whose remainder does not start with [TEST_] is a
    live key; every key that does not start with [FAK_] (the empty key
    included) is a sandbox key. *)
Theorem detectEnvironmentFromApiKey_key_shapes :
  (forall s, detectEnvironmentFromApiKey ("FAK_TEST_" ++ s) = sandbox) /\
  (forall s, startsWith s "TEST_" = false ->
             detectEnvironmentFromApiKey ("FAK_" ++ s) = live) /\
  (forall key, startsWith key "FAK_" = false ->
               detectEnvironmentFromApiKey key = sandbox).
Proof.
  unfold detectEnvironmentFromApiKey, startsWith. split; [ | split].
  - intros s. now rewrite prefix_append.
  - intros s Hs. rewrite (prefix_append "FAK_" s).
    replace (prefix "FAK_TEST_" ("FAK_" ++ s)) with (prefix "TEST_" s);
      [now rewrite Hs | reflexivity].
  - intros key Hk. rewrite Hk. now destruct (prefix "FAK_TEST_" key).
Qed.

Lemma detectEnvironmentFromApiKey_key_shapes_witness :
  detectEnvironmentFromApiKey "FAK_TESTING" = live /\
  detectEnvironmentFromApiKey "fak_test_key" = sandbox.
Proof.
  destruct detectEnvironmentFromApiKey_key_shapes as (_ & Hlive & Hother).
  split.
  - apply (Hlive "TESTING"). reflexivity.
  - apply (Hother "fak_test_key"). reflexivity.
Defined.

Lemma replaceTrailingSlash_slash (b : string) :
  replaceTrailingSlash (b ++ "/") = b.
Proof.
  induction b as [ | c b IH]; [reflexivity | ].
  cbn [String.append]. destruct (b ++ "/")%string as [ | c' rest] eqn:E.
  - now apply append_slash_nonempty in E.
  - change (replaceTrailingSlash (String c (String c' rest)))
      with (String c (replaceTrailingSlash (String c' rest))).
    now rewrite IH.
Qed.

Lemma append_assoc (a b c : string) :
  ((a ++ b) ++ c)%string = (a ++ (b ++ c))%string.
Proof.
  induction a as [ | x a IH]; [reflexivity | ]. simpl. now rewrite IH.
Qed.

(** X18.  An explicit base URL loses exactly one trailing slash,
    whatever the environment and the key of the configuration: the
    override [b/] resolves to the base URL [b], the override [b//] to
    [b/], and an override that does not end with a slash is kept as it
    is. *)
Theorem baseUrl_override_one_slash (config : FapshiConfig.t) (b : string) :
  (FapshiConfig.baseUrl config = Some (b ++ "/")%string ->
   baseUrl (createFapshiClient config) = b) /\
  (FapshiConfig.baseUrl config = Some (b ++ "//")%string ->
   baseUrl (createFapshiClient config) = (b ++ "/")%string) /\
  (FapshiConfig.baseUrl config = Some b ->
   (forall t, b <> (t ++ "/")%string) ->
   b <> EmptyString ->
   baseUrl (createFapshiClient config) = b).
Proof.
  assert (Hbase : forall x, FapshiConfig.baseUrl config = Some (x ++ "/")%string ->
                            baseUrl (createFapshiClient config) = x).
  { intros x Hx. unfold createFapshiClient, new. rewrite Hx.
    rewrite truthy_VStr by apply append_slash_nonempty.
    cbn [baseUrl]. apply replaceTrailingSlash_slash. }
  split; [exact (Hbase b) | split].
  - intros Hb. apply Hbase. rewrite Hb. f_equal. symmetry.
    apply (append_assoc b "/" "/").
  - intros Hb Hno Hne. unfold createFapshiClient, new. rewrite Hb.
    rewrite (truthy_VStr b Hne). cbn [baseUrl].
    destruct (replaceTrailingSlash_Stripped b) as [H | [_ H]]; [ | exact H].
    now contradiction (Hno (replaceTrailingSlash b)).
Qed.

Lemma baseUrl_override_one_slash_witness :
  baseUrl (createFapshiClient
             (FapshiConfig.mk "user" "FAK_key" (Some live)
                              (Some "https://proxy.example/api/")))
  = "https://proxy.example/api" /\
  baseUrl (createFapshiClient
             (FapshiConfig.mk "user" "FAK_key" (Some live)
                              (Some "https://proxy.example/api//")))
  = "https://proxy.example/api/".
Proof.
  split.
  - apply (proj1 (baseUrl_override_one_slash
                    (FapshiConfig.mk "user" "FAK_key" (Some live)
                                     (Some "https://proxy.example/api/"))
                    "https://proxy.example/api")).
    reflexivity.
  - apply (proj1 (proj2 (baseUrl_override_one_slash
                    (FapshiConfig.mk "user" "FAK_key" (Some live)
                                     (Some "https://proxy.example/api//"))
                    "https://proxy.example/api"))).
    reflexivity.
Defined.

Ltac local_or_returned :=
  match goal with
  | |- snd (run _ (localError _)) = inr _ -> _ => discriminate
  | |- snd (run _ (request _ _ _ _ _ _)) = inr _ -> _ =>
      let Hret := fresh "Hret" in
      intros Hret;
      apply request_returns in Hret as (r' & ? & ? & ?);
      exists r'; repeat split; assumption
  end.

(** X20.  The client is a passive relay: a value returned by any
    operation is the parsed body of a 2xx response to the operation's own
    request, unchanged; and for every operation other than
    [getPaymentStatus], once the request is sent every such body is
    returned as it is. *)
Theorem perform_relays_body (nts : number -> string) (this : FapshiClient)
    (op : Operation) (net : HttpRequest -> FetchResult) (v : value) :
  (snd (run net (perform nts this op)) = inr v ->
   Succeeds net (endpoint nts this op) v) /\
  (fst (run net (perform nts this op)) <> [] ->
   (forall transId, op <> GetPaymentStatus transId) ->
   Succeeds net (endpoint nts this op) v ->
   snd (run net (perform nts this op)) = inr v).
Proof.
  split.
  - destruct op as [r | r | transId | r | userId | params | | r]; cbn [perform].
    + unfold initiatePay. destruct (amountTooLow _); local_or_returned.
    + unfold directPay. destruct (amountTooLow _); [local_or_returned | ].
      destruct (negb _); local_or_returned.
    + unfold getPaymentStatus. destruct (negb (truthy (VStr transId)));
        [local_or_returned | ].
      rewrite run_bind.
      destruct (run net (request nts this "GET" ("/payment-status/" ++ transId)
                                 None None)) as [sent [x | a]] eqn:Hreq;
        [discriminate | ].
      assert (Hret : snd (run net (request nts this "GET"
                                     ("/payment-status/" ++ transId) None None))
                     = inr a) by now rewrite Hreq.
      apply request_returns in Hret as (r & Hnet & Hj & Hok).
      cbn [snd]. destruct (truthy a); cbn [negb run snd]; [ | discriminate].
      unfold read. destruct (getProperty a "transId") as [msg | id];
        cbn [bind run snd]; [discriminate | ].
      destruct (truthy id); cbn [negb run snd]; [ | discriminate].
      intros [= <-]. now exists r.
    + unfold expirePay. destruct (negb _); local_or_returned.
    + unfold getTransactionsByUserId.
      destruct (negb (truthy _)); [local_or_returned | ].
      destruct (negb _); local_or_returned.
    + unfold searchTransactions. destruct (limitOf params) as [l | ];
        [ | local_or_returned].
      destruct (_ || _); local_or_returned.
    + unfold getBalance. local_or_returned.
    + unfold payout. destruct (amountTooLow _); [local_or_returned | ].
      destruct (strictEquals _ _); destruct (negb _); local_or_returned.
  - intros Hsent Hop (r & Hnet & Hok & Hj).
    assert (Hgo : forall method path body qp,
               prepare nts this method path body qp = endpoint nts this op ->
               snd (run net (request nts this method path body qp)) = inr v).
    { intros method path body qp Heq. rewrite <- Heq in Hnet.
      now rewrite (request_ok _ _ _ _ _ _ _ r v Hnet Hj Hok). }
    destruct op as [q | q | transId | q | userId | params | | q]; cbn [perform] in *.
    + unfold initiatePay in *. destruct (amountTooLow _);
        [now contradiction Hsent | now apply Hgo].
    + unfold directPay in *. destruct (amountTooLow _); [now contradiction Hsent | ].
      destruct (negb _); [now contradiction Hsent | now apply Hgo].
    + now contradiction (Hop transId).
    + unfold expirePay in *.
      destruct (negb _); [now contradiction Hsent | now apply Hgo].
    + unfold getTransactionsByUserId in *.
      destruct (negb (truthy _)); [now contradiction Hsent | ].
      destruct (negb _); [now contradiction Hsent | now apply Hgo].
    + unfold searchTransactions in *. destruct (limitOf params) as [l | ];
        [ | now apply Hgo].
      destruct (_ || _); [now contradiction Hsent | now apply Hgo].
    + unfold getBalance. now apply Hgo.
    + unfold payout in *. destruct (amountTooLow _); [now contradiction Hsent | ].
      destruct (strictEquals _ _); destruct (negb _);
        try (now contradiction Hsent); now apply Hgo.
Qed.

Lemma perform_relays_body_witness :
  let body := VObj [("service", VStr "shop"); ("balance", VNum (ofZ 1500));
                    ("currency", VStr "XAF")] in
  snd (run (always (Resolves (mkResponse 200 (inr body))))
           (perform showNumber sandboxClient GetBalance)) = inr body.
Proof.
  intros body.
  apply (proj2 (perform_relays_body showNumber sandboxClient GetBalance
                  (always (Resolves (mkResponse 200 (inr body)))) body)).
  - discriminate.
  - discriminate.
  - apply always_Succeeds. lia.
Defined.

(* ================================================================== *)
(** * A limit that is not a number                                      *)
(* ================================================================== *)

(** C8, at the input where the code departs from it.  A limit of [NaN]
    is provided and does not lie within [1,100], yet [searchTransactions]
    does not fail: whatever the client and the other filters, the call
    proceeds to the network and the query carries the limit, stringified.
    The amount check of the payment operations, written with a truthiness
    test, rejects [NaN]; the limit check has no such test. *)
Theorem searchTransactions_NaN_limit_reaches_network (nts : number -> string)
    (this : FapshiClient)
    (status medium start end_ sort : option string) (amt : option number) :
  let params :=
    Some (SearchTransactionsParams.mk status medium start end_ amt (Some NaN) sort) in
  limitOf params = Some NaN /\
  lessEq (ofZ 1) NaN && lessEq NaN (ofZ 100) = false /\
  Proceeds (searchTransactions nts this params)
           (prepare nts this "GET" "/search" None (option_map entries params)) /\
  In ("limit", nts NaN)
     (searchParams (url (prepare nts this "GET" "/search" None
                                 (option_map entries params)))) /\
  amountTooLow (Some NaN) = true.
Proof.
  intros params. split; [reflexivity | split; [reflexivity | split; [ | split]]].
  - unfold searchTransactions, params. cbn [limitOf SearchTransactionsParams.limit].
    cbn [lessThan greaterThan ofZ orb]. apply request_Proceeds.
  - change (prepare nts this "GET" "/search" None (option_map entries params))
      with (endpoint nts this (SearchTransactions params)).
    unfold params. rewrite search_query, !in_app_iff.
    right. right. right. right. right. left. now left.
  - reflexivity.
Qed.
